(** * domainer.py: feed parsing, date sorting, cache round trip, date filter

    A shallow embedding of [domainer.py].  Python text is a list of
    Unicode code points.  The tables the code relies on (white space for
    [str.strip], line boundaries for [str.splitlines], decimal digits for
    the regular expression class [\d] and for [int]) are those of Unicode
    14.0, the version of CPython 3.11.  Python integers are [Z].  Printing,
    the HTTP request, file writes and the chat request are events of a
    trace; [sys.exit] and uncaught exceptions end a run. *)

From Stdlib Require Import Ascii String.
From Stdlib Require Import List ZArith Lia Bool Permutation Sorted.
Import ListNotations.

Set Implicit Arguments.

(* ================================================================= *)
(** ** Python text *)

(** A character is its code point. *)
Definition char : Type := N.

Definition str := list char.

Definition chr (a : ascii) : char := N_of_ascii a.

(** String literals of the source. *)
Definition lit (s : string) : str := map chr (list_ascii_of_string s).

Definition code (c : char) : Z := Z.of_N c.

Definition in_range (lo hi : Z) (c : char) : bool :=
  ((lo <=? code c) && (code c <=? hi))%Z.

Definition is_char (a c : char) : bool := N.eqb a c.

Definition TAB : char := 9%N.
Definition LF : char := 10%N.
Definition CR : char := 13%N.

(** [str.isspace] on one character: U+0009..U+000D, U+001C..U+0020,
    U+0085, U+00A0, U+1680, U+2000..U+200A, U+2028, U+2029, U+202F, U+205F
    and U+3000. *)
Definition isspace (c : char) : bool :=
  in_range 9 13 c || in_range 28 32 c || in_range 133 133 c
  || in_range 160 160 c || in_range 5760 5760 c || in_range 8192 8202 c
  || in_range 8232 8233 c || in_range 8239 8239 c || in_range 8287 8287 c
  || in_range 12288 12288 c.

(** The line boundaries of [str.splitlines]: LF, VT, FF, CR, FS, GS, RS,
    NEL, LINE SEPARATOR and PARAGRAPH SEPARATOR (CR LF counts as one
    boundary). *)
Definition is_linebreak (c : char) : bool :=
  in_range 10 13 c || in_range 28 30 c || in_range 133 133 c
  || in_range 8232 8233 c.

(** The decimal digits (category Nd) come in runs of ten, zero to nine;
    these are the zeros of the runs. *)
Definition decimal_zeros : list Z :=
  [48; 1632; 1776; 1984; 2406; 2534; 2662; 2790; 2918; 3046; 3174; 3302;
   3430; 3558; 3664; 3792; 3872; 4160; 4240; 6112; 6160; 6470; 6608; 6784;
   6800; 6992; 7088; 7232; 7248; 42528; 43216; 43264; 43472; 43504; 43600;
   44016; 65296; 66720; 68912; 69734; 69872; 69942; 70096; 70384; 70736;
   70864; 71248; 71360; 71472; 71904; 72016; 72784; 73040; 73120; 92768;
   92864; 93008; 120782; 120792; 120802; 120812; 120822; 123200; 123632;
   125264; 130032]%Z.

(** The zero of the run of a decimal digit. *)
Definition zero_of (c : char) : option Z :=
  find (fun z => in_range z (z + 9) c) decimal_zeros.

(** The class [\d] of the [re] module on text: any decimal digit. *)
Definition is_decimal (c : char) : bool :=
  match zero_of c with
  | Some _ => true
  | None => false
  end.

(** The class [[0-9]]. *)
Definition is_ascii_digit (c : char) : bool := in_range 48 57 c.

(** The value [int] gives a decimal digit (0 on other characters, which
    [int] refuses). *)
Definition digit_val (c : char) : Z :=
  match zero_of c with
  | Some z => (code c - z)%Z
  | None => 0%Z
  end.

(** The digit of ["%d"]. *)
Definition digit_char (k : Z) : char := Z.to_N (48 + k).

(** *** [str.strip] *)

Fixpoint lstrip (s : str) : str :=
  match s with
  | [] => []
  | c :: s' => if isspace c then lstrip s' else s
  end.

Definition rstrip (s : str) : str := rev (lstrip (rev s)).

Definition strip (s : str) : str := rstrip (lstrip s).

(** *** [str.splitlines] *)

(** Puts a character in front of the first line of [ls]. *)
Definition cons_first (c : char) (ls : list str) : list str :=
  match ls with
  | [] => [[c]]
  | l :: ls' => (c :: l) :: ls'
  end.

Fixpoint splitlines (s : str) : list str :=
  match s with
  | [] => []
  | c :: s' =>
      if is_linebreak c then
        [] :: match s' with
              | c' :: s'' =>
                  if is_char CR c && is_char LF c' then splitlines s''
                  else splitlines s'
              | [] => []
              end
      else cons_first c (splitlines s')
  end.

(** *** [str.split(sep)] with a non-empty separator *)

Fixpoint prefix (p s : str) : bool :=
  match p, s with
  | [], _ => true
  | a :: p', b :: s' => N.eqb a b && prefix p' s'
  | _ :: _, [] => false
  end.

(** [split_from sep skip s]: the fields of [s] once its first [skip]
    characters, the rest of a separator just matched, are passed over.  The
    scan is left to right and takes the leftmost occurrence each time. *)
Fixpoint split_from (sep : str) (skip : nat) (s : str) : list str :=
  match s with
  | [] => [[]]
  | c :: s' =>
      match skip with
      | S k => split_from sep k s'
      | O =>
          if prefix sep s then [] :: split_from sep (length sep - 1) s'
          else cons_first c (split_from sep 0 s')
      end
  end.

Definition split (sep s : str) : list str := split_from sep 0 s.

(** *** Reading a text file line by line *)

(** Universal newlines of [open(..., mode='r')]: CR LF and a lone CR are
    read as LF. *)
Fixpoint universal_newlines (s : str) : str :=
  match s with
  | [] => []
  | c :: s' =>
      if is_char CR c then
        LF :: match s' with
              | c' :: s'' =>
                  if is_char LF c' then universal_newlines s''
                  else universal_newlines s'
              | [] => []
              end
      else c :: universal_newlines s'
  end.

(** The lines a file iterator yields: each keeps its LF. *)
Fixpoint lines_keepends (s : str) : list str :=
  match s with
  | [] => []
  | c :: s' =>
      if is_char LF c then [c] :: lines_keepends s'
      else cons_first c (lines_keepends s')
  end.

Definition file_lines (text : str) : list str :=
  lines_keepends (universal_newlines text).

(** [sep.join(xs)] *)
Fixpoint join (sep : str) (xs : list str) : str :=
  match xs with
  | [] => []
  | [x] => x
  | x :: xs' => x ++ sep ++ join sep xs'
  end.

(* ================================================================= *)
(** ** [datetime.date] *)

Record date : Type := mkdate { year : Z; month : Z; day : Z }.

Module Date.
Local Open Scope Z_scope.

Definition is_leap (y : Z) : bool :=
  (y mod 4 =? 0) && (negb (y mod 100 =? 0) || (y mod 400 =? 0)).

Definition days_in_month (y m : Z) : Z :=
  if (m =? 2) && is_leap y then 29
  else if m =? 2 then 28
  else if (m =? 4) || (m =? 6) || (m =? 9) || (m =? 11) then 30
  else 31.

(** The check of the [date] constructor: MINYEAR = 1, MAXYEAR = 9999. *)
Definition check_date_fields (y m d : Z) : bool :=
  (1 <=? y) && (y <=? 9999) && (1 <=? m) && (m <=? 12)
  && (1 <=? d) && (d <=? days_in_month y m).

Definition valid (dt : date) : Prop :=
  check_date_fields (year dt) (month dt) (day dt) = true.

(** [date.__eq__] and [date.__lt__]: the (year, month, day) triples. *)
Definition eqb (a b : date) : bool :=
  (year a =? year b) && (month a =? month b) && (day a =? day b).

Definition ltb (a b : date) : bool :=
  (year a <? year b)
  || ((year a =? year b)
      && ((month a <? month b)
          || ((month a =? month b) && (day a <? day b)))).

(** ["%0*d"] for a number below [10 ^ width]. *)
Fixpoint zero_pad (width : nat) (n : Z) : str :=
  match width with
  | O => []
  | S w => zero_pad w (n / 10) ++ [digit_char (n mod 10)]
  end.

(** [date.__str__], that is [isoformat]: ["%04d-%02d-%02d"]. *)
Definition isoformat (dt : date) : str :=
  zero_pad 4 (year dt) ++ lit "-" ++ zero_pad 2 (month dt)
  ++ lit "-" ++ zero_pad 2 (day dt).

(** [int(text)] on the text of a regular-expression group: surrounding
    white space is dropped, the digits are read in base ten. *)
Definition int (s : str) : Z :=
  fold_left (fun acc c => 10 * acc + digit_val c) (strip s) 0.

(** *** The regular expression of ['%Y-%m-%d']

    [_strptime] turns the format into
    [(?P<Y>\d\d\d\d)-(?P<m>1[0-2]|0[1-9]|[1-9])-(?P<d>3[0-1]|[1-2]\d|0[1-9]|[1-9]| [1-9])]
    and calls [match] on it.  A matcher returns every way it can consume a
    prefix, in the order the backtracking engine tries them. *)

Definition matcher := str -> list (str * str).

Fixpoint take_classes (cls : list (char -> bool)) (s : str)
  : option (str * str) :=
  match cls with
  | [] => Some ([], s)
  | p :: cls' =>
      match s with
      | [] => None
      | c :: s' =>
          if p c then
            match take_classes cls' s' with
            | Some (m, r) => Some (c :: m, r)
            | None => None
            end
          else None
      end
  end.

Definition classes (cls : list (char -> bool)) : matcher :=
  fun s => match take_classes cls s with
           | Some x => [x]
           | None => []
           end.

Definition alt (a b : matcher) : matcher := fun s => a s ++ b s.

Definition re_Y : matcher :=
  classes [is_decimal; is_decimal; is_decimal; is_decimal].

Definition re_m : matcher :=
  alt (classes [is_char (chr "1"); in_range 48 50])
   (alt (classes [is_char (chr "0"); in_range 49 57])
        (classes [in_range 49 57])).

Definition re_d : matcher :=
  alt (classes [is_char (chr "3"); in_range 48 49])
   (alt (classes [in_range 49 50; is_decimal])
    (alt (classes [is_char (chr "0"); in_range 49 57])
     (alt (classes [in_range 49 57])
          (classes [is_char (chr " "); in_range 49 57])))).

Definition re_dash : matcher := classes [is_char (chr "-")].

(** The expression after the year: the groups (m, d) and the unconsumed
    rest of every match, first match first. *)
Definition re_month_day (s : str) : list (str * str * str) :=
  flat_map (fun '(_, r2) =>
  flat_map (fun '(m, r3) =>
  flat_map (fun '(_, r4) =>
  map (fun '(d, r5) => (m, d, r5)) (re_d r4))
    (re_dash r3)) (re_m r2)) (re_dash s).

(** The whole expression: the groups (Y, m, d) and the unconsumed rest. *)
Definition format_regex (s : str) : list (str * str * str * str) :=
  flat_map (fun '(Y, r1) =>
  map (fun '(m, d, r) => (Y, m, d, r)) (re_month_day r1)) (re_Y s).

(** [datetime.strptime(s, '%Y-%m-%d').date()]; [None] is [ValueError]. *)
Definition strptime (s : str) : option date :=
  match format_regex s with
  | [] => None
  | (Y, m, d, rest) :: _ =>
      match rest with
      | _ :: _ => None
      | [] =>
          if check_date_fields (int Y) (int m) (int d)
          then Some (mkdate (int Y) (int m) (int d))
          else None
      end
  end.

End Date.

(* ================================================================= *)
(** ** Effects: a trace of events and three ways to end *)

Inductive exn : Type :=
| StopIteration
| UnicodeDecodeError
| OpenAIError (msg : str)
| OtherException (msg : str).

Inductive event : Type :=
| Print (text : str)
| HttpGet (url : str)
| FileWrite (path : str) (content : str)
| ChatRequest (prompt : str).

Inductive result (A : Type) : Type :=
| Return (a : A)
| SysExit (msg : str)
| Raise (e : exn).

Arguments Return {A} a.
Arguments SysExit {A} msg.
Arguments Raise {A} e.

Definition M (A : Type) : Type := (list event * result A)%type.

Definition ret {A} (a : A) : M A := ([], Return a).

Definition bind {A B} (m : M A) (k : A -> M B) : M B :=
  match m with
  | (tr, Return a) => let (tr', r) := k a in (tr ++ tr', r)
  | (tr, SysExit msg) => (tr, SysExit msg)
  | (tr, Raise e) => (tr, Raise e)
  end.

Definition emit (e : event) : M unit := ([e], Return tt).
Definition print (text : str) : M unit := emit (Print text).
Definition sys_exit {A} (msg : str) : M A := ([], SysExit msg).
Definition raise {A} (e : exn) : M A := ([], Raise e).

Notation "x <- m ;; k" := (bind m (fun x => k))
  (at level 61, m at next level, right associativity).
Notation "m ;; k" := (bind m (fun _ => k))
  (at level 61, right associativity).

(** What a run finds around it.  A file is missing, or opening it fails
    with another [IOError], or its bytes are the UTF-8 of a text, or they
    are not valid UTF-8: then [read] is the text of the lines the reader
    hands over before the decoder fails (none when the bad bytes are in
    the first block read). *)

Inductive file_state : Type :=
| Missing
| Unreadable (err : str)
| Contents (text : str)
| Undecodable (read : str).

Inductive http_result : Type :=
| HttpOk (body : str)
| HttpFail (err : str).

(** The outcome of [client.chat.completions.create]: a response with the
    [message.content] of each of its choices ([None] when a choice has no
    content), an [OpenAIError] (authentication, quota, transport), or any
    other [Exception]. *)
Inductive chat_result : Type :=
| ChatResponse (choices : list (option str))
| ChatOpenAIError (msg : str)
| ChatOtherError (msg : str).

(** [cache] is the cache file at the start of the run, as decoded text
    when it can be read; [feed] is what the one GET request gives;
    [write_error path] is the [IOError], if any, of opening [path] for
    writing; [api_key] is the environment variable of the key; [chat] is
    the answer of the service to a prompt; [arg_date] and [arg_chatgpt]
    are the command line. *)
Record World : Type := mkWorld {
  script_dir : str;
  cache : file_state;
  feed : http_result;
  write_error : str -> option str;
  api_key : option str;
  chat : str -> chat_result;
  arg_date : option str;
  arg_chatgpt : bool
}.

(* ================================================================= *)
(** ** The program *)

Definition entry : Type := (str * date)%type.

Definition DOMAIN_DATA_URL : str :=
  lit "https://data.internetstiftelsen.se/bardate_domains.txt".

(** [os.path.join] with a relative second part. *)
Definition path_join (dir name : str) : str :=
  match rev dir with
  | [] => name
  | c :: _ => if is_char (chr "/") c then dir ++ name else dir ++ lit "/" ++ name
  end.

Definition SORTED_FILE (w : World) : str :=
  path_join (script_dir w) (lit "sorted_domains.txt").

(** A [for] loop over lines whose body appends at most one entry. *)
Fixpoint for_lines (body : str -> M (option entry)) (lines : list str)
  : M (list entry) :=
  match lines with
  | [] => ret []
  | line :: rest =>
      r <- body line ;;
      entries <- for_lines body rest ;;
      ret (match r with Some e => e :: entries | None => entries end)
  end.

Definition download_file (w : World) (url : str) : M (option str) :=
  emit (HttpGet url) ;;
  match feed w with
  | HttpOk body => ret (Some body)
  | HttpFail err =>
      print (lit "Error downloading the file: " ++ err) ;; ret None
  end.

(** The body of the loop of [parse_file_content]. *)
Definition parse_line (line : str) : M (option entry) :=
  match split [TAB] line with
  | [domain; date_str] =>
      match Date.strptime date_str with
      | Some d => ret (Some (domain, d))
      | None =>
          print (lit "Skipping invalid date format: " ++ line) ;; ret None
      end
  | _ => print (lit "Skipping malformed line: " ++ line) ;; ret None
  end.

Definition parse_file_content (content : str) : M (list entry) :=
  for_lines parse_line (splitlines (strip content)).

(** The built-in [sorted] with a key: ascending, stable, comparing keys
    with [<] only.  Each element goes in front of the first later element
    whose key is not smaller. *)
Fixpoint insert_by {A K} (key : A -> K) (lt : K -> K -> bool)
  (x : A) (l : list A) : list A :=
  match l with
  | [] => [x]
  | y :: l' =>
      if lt (key y) (key x) then y :: insert_by key lt x l'
      else x :: l
  end.

Fixpoint sorted {A K} (key : A -> K) (lt : K -> K -> bool) (l : list A)
  : list A :=
  match l with
  | [] => []
  | x :: l' => insert_by key lt x (sorted key lt l')
  end.

Definition sort_entries_by_date (entries : list entry) : list entry :=
  sorted (fun x => snd x) Date.ltb entries.

Definition download_and_process_data (w : World) (url : str)
  : M (list entry) :=
  content <- download_file w url ;;
  match content with
  | None => sys_exit (lit "Error: Unable to download data.")
  | Some content =>
      entries <- parse_file_content content ;;
      match entries with
      | [] => sys_exit (lit "Error: No valid entries found.")
      | _ => ret (sort_entries_by_date entries)
      end
  end.

(** What [save_to_file] writes when nothing fails. *)
Definition file_text (header : str) (rows : list str) : str :=
  header ++ [LF] ++ concat (map (fun row => row ++ [LF]) rows).

Definition save_to_file (w : World) (filename header : str)
  (rows : list str) : M unit :=
  match write_error w filename with
  | None =>
      emit (FileWrite filename (file_text header rows)) ;;
      print (lit "Data successfully saved to " ++ filename)
  | Some err => print (lit "Error writing to file: " ++ err)
  end.

(** The body of the loop of [load_sorted_entries]. *)
Definition load_line (line : str) : M (option entry) :=
  match split (lit ", ") (strip line) with
  | [domain; date_str] =>
      match Date.strptime date_str with
      | Some d => ret (Some (domain, d))
      | None =>
          print (lit "Skipping invalid date format: " ++ line) ;; ret None
      end
  | _ => print (lit "Skipping malformed line: " ++ line) ;; ret None
  end.

(** [next(file)] has no default: on a file without a first line it raises
    [StopIteration], which neither [except] clause names.  Nor do they name
    [UnicodeDecodeError], a [ValueError], which [next(file)] or the loop
    raises on bytes that are not UTF-8. *)
Definition load_sorted_entries (filename : str) (f : file_state)
  : M (list entry) :=
  match f with
  | Missing =>
      print (lit "File '" ++ filename ++ lit "' not found.") ;; ret []
  | Unreadable err => print (lit "Error reading file: " ++ err) ;; ret []
  | Contents text =>
      match file_lines text with
      | [] => raise StopIteration
      | _ :: lines => for_lines load_line lines
      end
  | Undecodable read =>
      match file_lines read with
      | [] => raise UnicodeDecodeError
      | _ :: lines => for_lines load_line lines ;; raise UnicodeDecodeError
      end
  end.

Definition get_available_domains (entries : list entry) (target_date : date)
  : list str :=
  map fst (filter (fun e => Date.eqb (snd e) target_date) entries).

(** [OpenAI(api_key=...)]: without a key the constructor of the client
    raises [OpenAIError]. *)
Definition OpenAI (key : option str) : M unit :=
  match key with
  | None =>
      raise (OpenAIError (lit "The api_key client option must be set either by passing api_key to the client or by setting the OPENAI_API_KEY environment variable"))
  | Some _ => ret tt
  end.

Definition prompt_of (domains : list str) : str :=
  lit "Analyze the following domain names based on their potential value and provide a specific recommendation for each. "
  ++ lit "Consider factors like brandability, relevance to industries or trends, commercial potential, and any risks. "
  ++ lit "Format the response as a numbered list with a brief explanation for each domain."
  ++ [LF; LF] ++ lit "Domains:" ++ [LF] ++ join [LF] domains ++ [LF; LF]
  ++ lit "Provide concise recommendations for each domain:".

Definition analyze_domains_with_chatgpt (w : World) (domains : list str)
  : M str :=
  match domains with
  | [] => ret (lit "No domains provided for analysis.")
  | _ :: _ =>
      OpenAI (api_key w) ;;
      emit (ChatRequest (prompt_of domains)) ;;
      match chat w (prompt_of domains) with
      | ChatResponse (Some content :: _) => ret (strip content)
      | ChatResponse (None :: _) =>
          ret (lit "Unexpected Error: 'NoneType' object has no attribute 'strip'")
      | ChatResponse [] =>
          ret (lit "Unexpected Error: list index out of range")
      | ChatOpenAIError msg => ret (lit "OpenAI API Error: " ++ msg)
      | ChatOtherError msg => ret (lit "Unexpected Error: " ++ msg)
      end
  end.

Definition display_analysis (domains : list str) (analysis : str) : M unit :=
  match domains with
  | [] => print (lit "No domains available for analysis.")
  | _ :: _ =>
      print (LF :: lit "ChatGPT Analysis and Recommendations:") ;;
      print (repeat (chr "-") 50) ;;
      print analysis ;;
      print (repeat (chr "-") 50) ;;
      print (lit "Analysis complete. Use the insights to evaluate domain potential.")
  end.

Definition available_file (w : World) (target_date : date) : str :=
  path_join (script_dir w)
    (lit "available_domains_" ++ Date.isoformat target_date ++ lit ".txt").

(** Lines 243-249 of [main]: the data comes from the feed when there is no
    cache file and from the cache file otherwise. *)
Definition main_data (w : World) : M (list entry) :=
  match cache w with
  | Missing =>
      print (lit "Downloading and processing domain data...") ;;
      sorted_entries <- download_and_process_data w DOMAIN_DATA_URL ;;
      save_to_file w (SORTED_FILE w) (lit "domain, date")
        (map (fun '(domain, d) => domain ++ lit ", " ++ Date.isoformat d)
           sorted_entries) ;;
      ret sorted_entries
  | f =>
      print (lit "Loading sorted data from file...") ;;
      load_sorted_entries (SORTED_FILE w) f
  end.

(** Lines 252-274 of [main]. *)
Definition main_query (w : World) (sorted_entries : list entry) : M unit :=
  match arg_date w with
  | Some ((_ :: _) as date_arg) =>
      match Date.strptime date_arg with
      | None => sys_exit (lit "Error: Invalid date format. Use YYYY-MM-DD.")
      | Some target_date =>
          match get_available_domains sorted_entries target_date with
          | [] =>
              print (lit "No domains available on "
                     ++ Date.isoformat target_date ++ lit ".")
          | available_domains =>
              print (lit "Domains available on "
                     ++ Date.isoformat target_date ++ lit ":") ;;
              print (join [LF] available_domains) ;;
              save_to_file w (available_file w target_date) (lit "domain")
                available_domains ;;
              if arg_chatgpt w then
                print (lit "Analyzing domains with ChatGPT...") ;;
                analysis <- analyze_domains_with_chatgpt w available_domains ;;
                display_analysis available_domains analysis
              else ret tt
          end
      end
  | _ => print (lit "Data successfully downloaded and sorted.")
  end.

Definition main (w : World) : M unit :=
  sorted_entries <- main_data w ;;
  main_query w sorted_entries.

(* ================================================================= *)
(** ** Notions the properties are stated with *)

Module Date_order.
Local Open Scope Z_scope.

(** Ascending order of calendar dates. *)
Definition le (a b : date) : Prop :=
  year a < year b
  \/ (year a = year b
      /\ (month a < month b \/ (month a = month b /\ day a <= day b))).

End Date_order.

Definition entry_le (a b : entry) : Prop := Date_order.le (snd a) (snd b).

Definition has_date (d : date) (e : entry) : bool := Date.eqb (snd e) d.

(** [out] lists, in order, the domains of the records of [entries] dated
    [target]. *)
Inductive restricted_to (target : date) : list entry -> list str -> Prop :=
| restricted_nil : restricted_to target [] []
| restricted_keep dom l out :
    restricted_to target l out ->
    restricted_to target ((dom, target) :: l) (dom :: out)
| restricted_skip dom d l out :
    d <> target ->
    restricted_to target l out ->
    restricted_to target ((dom, d) :: l) out.

(** The two warnings of the parser. *)
Definition skip_warning (e : event) : bool :=
  match e with
  | Print text =>
      prefix (lit "Skipping malformed line: ") text
      || prefix (lit "Skipping invalid date format: ") text
  | _ => false
  end.

Definition count_warnings (tr : list event) : nat :=
  length (filter skip_warning tr).

Definition is_chat_request (e : event) : bool :=
  match e with
  | ChatRequest _ => true
  | _ => false
  end.

Definition writes_to (path : str) (e : event) : Prop :=
  match e with
  | FileWrite p _ => p = path
  | _ => False
  end.

(** The pattern of the specification: four digits 0 to 9, a dash, two
    digits, a dash, two digits. *)
Definition strict_pattern (s : str) : bool :=
  match s with
  | [y1; y2; y3; y4; a; m1; m2; b; d1; d2] =>
      forallb is_ascii_digit [y1; y2; y3; y4; m1; m2; d1; d2]
      && is_char (chr "-") a && is_char (chr "-") b
  | _ => false
  end.

(** The texts ['%Y-%m-%d'] reads as a given date: the year in four
    decimal digits of any script; the month in digits 0 to 9, with or
    without its leading zero; the day in digits 0 to 9 with its leading
    zero, without it, or with a space in its place, and for the days 10 to
    29 the second digit may be a decimal digit of any script. *)
Inductive year_text (y : Z) : str -> Prop :=
| year_four_digits a b c e :
    is_decimal a = true -> is_decimal b = true ->
    is_decimal c = true -> is_decimal e = true ->
    (y = 1000 * digit_val a + 100 * digit_val b + 10 * digit_val c
         + digit_val e)%Z ->
    year_text y [a; b; c; e].

Inductive month_text (m : Z) : str -> Prop :=
| month_two_digits : month_text m (Date.zero_pad 2 m)
| month_one_digit : (m < 10)%Z -> month_text m (Date.zero_pad 1 m).

Inductive day_text (d : Z) : str -> Prop :=
| day_two_digits : day_text d (Date.zero_pad 2 d)
| day_one_digit : (d < 10)%Z -> day_text d (Date.zero_pad 1 d)
| day_space_digit : (d < 10)%Z -> day_text d ((chr " ") :: Date.zero_pad 1 d)
| day_any_script t u :
    (1 <= t <= 2)%Z -> is_decimal u = true ->
    (d = 10 * t + digit_val u)%Z ->
    day_text d [digit_char t; u].

Definition date_text (dt : date) (s : str) : Prop :=
  exists ye mo da,
    year_text (year dt) ye /\ month_text (month dt) mo
    /\ day_text (day dt) da
    /\ s = ye ++ lit "-" ++ mo ++ lit "-" ++ da.

(** The rows and the text of the cache file. *)
Definition cache_rows (entries : list entry) : list str :=
  map (fun '(domain, d) => domain ++ lit ", " ++ Date.isoformat d) entries.

Definition cache_text (entries : list entry) : str :=
  file_text (lit "domain, date") (cache_rows entries).

(** [occurs sep s]: [sep] occurs somewhere in [s]. *)
Fixpoint occurs (sep s : str) : bool :=
  match s with
  | [] => prefix sep []
  | _ :: s' => prefix sep s || occurs sep s'
  end.

(** Domains the cache format keeps: no CR or LF, no white space in front,
    no comma followed by a space. *)
Definition cache_safe (domain : str) : bool :=
  forallb (fun c => negb (is_char CR c || is_char LF c)) domain
  && match domain with
     | [] => true
     | c :: _ => negb (isspace c)
     end
  && negb (occurs (lit ", ") domain).

(** Records the cache format keeps: a safe domain and a date a [date]
    object can hold. *)
Definition cache_ok (e : entry) : Prop :=
  cache_safe (fst e) = true /\ Date.valid (snd e).

(** The events of the data phase of [main]: printing, the download and
    the write of the cache file. *)
Definition data_event (w : World) (e : event) : Prop :=
  match e with
  | Print _ | HttpGet _ => True
  | FileWrite p _ => p = SORTED_FILE w
  | ChatRequest _ => False
  end.

(** A loop body that yields an entry in silence or nothing with one
    warning. *)
Definition one_or_warning (body : str -> M (option entry)) : Prop :=
  forall line,
    (exists e, body line = ([], Return (Some e)))
    \/ (exists text, body line = ([Print text], Return None)
                     /\ skip_warning (Print text) = true).

(** *** Sample inputs *)

Definition no_chat : str -> chat_result := fun _ => ChatResponse [].

(** A run with the cache file [text], asked for [d], advisory requested,
    no API key. *)
Definition cached_world (text d : str) : World :=
  mkWorld (lit "/opt/domainer") (Contents text) (HttpFail [])
    (fun _ => None) None no_chat (Some d) true.

(** A first run on the feed [body], asked for [d], advisory requested. *)
Definition fresh_world (body d : str) (key : option str) : World :=
  mkWorld (lit "/opt/domainer") Missing (HttpOk body)
    (fun _ => None) key no_chat (Some d) true.

Definition d_2024_01_05 : date := mkdate 2024 1 5.
Definition d_2024_01_10 : date := mkdate 2024 1 10.

Definition sample_feed : str :=
  lit "example.se" ++ [TAB] ++ lit "2024-01-10" ++ [LF]
  ++ lit "foo.se" ++ [TAB] ++ lit "2024-01-05" ++ [LF]
  ++ lit "bad-line" ++ [LF]
  ++ lit "bar.se" ++ [TAB] ++ lit "NOTADATE".

Definition sample_entries : list entry :=
  [(lit "foo.se", d_2024_01_05); (lit "example.se", d_2024_01_10)].

(** *** Notions for the properties of whole runs *)

Definition is_http_get (e : event) : bool :=
  match e with
  | HttpGet _ => true
  | _ => false
  end.

Definition count_events (p : event -> bool) (tr : list event) : nat :=
  length (filter p tr).

(** A text without CR and LF. *)
Definition one_line (s : str) : Prop :=
  Forall (fun c => is_char CR c = false /\ is_char LF c = false) s.

(** The five prints of [display_analysis] around an analysis. *)
Definition framed (analysis : str) : list event :=
  [Print (LF :: lit "ChatGPT Analysis and Recommendations:");
   Print (repeat (chr "-") 50);
   Print analysis;
   Print (repeat (chr "-") 50);
   Print (lit "Analysis complete. Use the insights to evaluate domain potential.")].

(** The world [w] with other answers to the opening of files for
    writing. *)
Definition with_write_error (w : World) (f : str -> option str) : World :=
  mkWorld (script_dir w) (cache w) (feed w) f (api_key w) (chat w)
    (arg_date w) (arg_chatgpt w).

(** The world [w] with another date on the command line. *)
Definition with_arg_date (w : World) (d : str) : World :=
  mkWorld (script_dir w) (cache w) (feed w) (write_error w) (api_key w)
    (chat w) (Some d) (arg_chatgpt w).

(** *** More sample inputs *)

(** A first run without network. *)
Definition offline_world (d : str) : World :=
  mkWorld (lit "/opt/domainer") Missing (HttpFail (lit "connection refused"))
    (fun _ => None) None no_chat (Some d) true.

(** A first run on the feed [body] that can write no file, no advisory. *)
Definition read_only_world (body d : str) : World :=
  mkWorld (lit "/opt/domainer") Missing (HttpOk body)
    (fun _ => Some (lit "[Errno 30] Read-only file system")) None no_chat
    (Some d) false.

(** A run on the cache file [text] with a key and a service that answers
    every prompt with [answer]. *)
Definition advised_world (text d : str) (answer : chat_result) : World :=
  mkWorld (lit "/opt/domainer") (Contents text) (HttpFail [])
    (fun _ => None) (Some (lit "sk-test")) (fun _ => answer) (Some d) true.

(* ================================================================= *)
(** ** The examples of the specification *)

Example strptime_ex1 :
  Date.strptime (lit "2024-01-05") = Some (mkdate 2024 1 5).
Proof. reflexivity. Qed.

Example strptime_ex2 :
  Date.strptime (lit "2024-1-5") = Some (mkdate 2024 1 5).
Proof. reflexivity. Qed.

Example strptime_ex3 : Date.strptime (lit "2024-13-40") = None.
Proof. reflexivity. Qed.

Example strptime_ex4 : Date.strptime (lit "2024-02-30") = None.
Proof. reflexivity. Qed.

Example strptime_ex5 : Date.strptime (lit "0000-01-01") = None.
Proof. reflexivity. Qed.

Example strptime_ex6 : Date.strptime (lit "2024-01-05 ") = None.
Proof. reflexivity. Qed.

Example strptime_ex7 :
  Date.strptime (lit "2024-01- 5") = Some (mkdate 2024 1 5).
Proof. reflexivity. Qed.

Example strptime_ex8 : Date.strptime (lit "2024-1-35") = None.
Proof. reflexivity. Qed.

(** Fullwidth digits (U+FF10 to U+FF19) in the year and as second digit of
    the day, and in the month. *)
Example strptime_ex9 :
  Date.strptime ([65298; 65296; 65298; 65300]%N ++ lit "-01-1" ++ [65301%N])
  = Some (mkdate 2024 1 15).
Proof. reflexivity. Qed.

Example strptime_ex10 :
  Date.strptime (lit "2024-" ++ [65296; 65297]%N ++ lit "-05") = None.
Proof. reflexivity. Qed.

Example isoformat_ex1 :
  Date.isoformat (mkdate 987 1 5) = lit "0987-01-05".
Proof. reflexivity. Qed.

Example splitlines_ex1 :
  splitlines (lit "a" ++ [CR; LF] ++ lit "b" ++ [LF; LF] ++ lit "c" ++ [LF])
  = [lit "a"; lit "b"; []; lit "c"].
Proof. reflexivity. Qed.

Example split_ex1 :
  split (lit ", ") (lit "a,, b, , c") = [lit "a,"; lit "b"; []; lit "c"].
Proof. reflexivity. Qed.

Example parse_sample_feed :
  parse_file_content sample_feed
  = ([Print (lit "Skipping malformed line: bad-line");
      Print (lit "Skipping invalid date format: bar.se" ++ [TAB]
             ++ lit "NOTADATE")],
     Return [(lit "example.se", d_2024_01_10); (lit "foo.se", d_2024_01_05)]).
Proof. reflexivity. Qed.

Example sort_sample_feed :
  sort_entries_by_date
    [(lit "example.se", d_2024_01_10); (lit "foo.se", d_2024_01_05)]
  = sample_entries.
Proof. reflexivity. Qed.

Example filter_sample_hit :
  get_available_domains sample_entries d_2024_01_05 = [lit "foo.se"].
Proof. reflexivity. Qed.

Example filter_sample_miss :
  get_available_domains sample_entries (mkdate 2024 1 1) = [].
Proof. reflexivity. Qed.

Example invalid_cli_date :
  main (fresh_world sample_feed (lit "2024-13-40") None)
  = (fst (main_data (fresh_world sample_feed (lit "2024-13-40") None)),
     SysExit (lit "Error: Invalid date format. Use YYYY-MM-DD.")).
Proof. reflexivity. Qed.

(* ================================================================= *)
(** ** Dates: equality and order *)

Lemma date_eqb_eq (a b : date) : Date.eqb a b = true <-> a = b.
Proof.
  destruct a as [ya ma da], b as [yb mb db]; unfold Date.eqb; simpl.
  rewrite !andb_true_iff, !Z.eqb_eq. split.
  - intros [[-> ->] ->]. reflexivity.
  - intros H. inversion H. auto.
Qed.

Lemma date_eqb_refl (a : date) : Date.eqb a a = true.
Proof. apply date_eqb_eq. reflexivity. Qed.

Lemma date_eqb_neq (a b : date) : Date.eqb a b = false <-> a <> b.
Proof.
  rewrite <- date_eqb_eq. destruct (Date.eqb a b); split; congruence.
Qed.

Lemma date_ltb_false_le (a b : date) :
  Date.ltb b a = false <-> Date_order.le a b.
Proof.
  unfold Date.ltb, Date_order.le.
  rewrite orb_false_iff, andb_false_iff, orb_false_iff, andb_false_iff.
  rewrite !Z.ltb_ge, !Z.eqb_neq. lia.
Qed.

Lemma date_ltb_true_lt (a b : date) :
  Date.ltb a b = true <-> Date_order.le a b /\ a <> b.
Proof.
  destruct a as [ya ma da], b as [yb mb db].
  unfold Date.ltb, Date_order.le; simpl.
  rewrite orb_true_iff, andb_true_iff, orb_true_iff, andb_true_iff.
  rewrite !Z.ltb_lt, !Z.eqb_eq. split.
  - intros H. split; [lia|]. intros E. inversion E. lia.
  - intros [H N].
    assert (da = db -> ~ (ya = yb /\ ma = mb)) by (intros -> [-> ->]; auto).
    lia.
Qed.

Lemma date_le_trans (a b c : date) :
  Date_order.le a b -> Date_order.le b c -> Date_order.le a c.
Proof. unfold Date_order.le. lia. Qed.

(* ================================================================= *)
(** ** The stable sort *)

Section StableSort.

Variables (A K : Type) (key : A -> K) (lt : K -> K -> bool).

Let le (a b : A) : Prop := lt (key b) (key a) = false.

Hypothesis lt_asym : forall a b, lt a b = true -> lt b a = false.
Hypothesis le_trans : forall a b c : A, le a b -> le b c -> le a c.

Lemma insert_by_perm (x : A) (l : list A) :
  Permutation (x :: l) (insert_by key lt x l).
Proof.
  induction l as [|y l IH]; simpl; [reflexivity|].
  destruct (lt (key y) (key x)); [|reflexivity].
  rewrite perm_swap. constructor. exact IH.
Qed.

Lemma sorted_perm (l : list A) : Permutation l (sorted key lt l).
Proof.
  induction l as [|x l IH]; simpl; [constructor|].
  rewrite <- insert_by_perm. constructor. exact IH.
Qed.

Lemma insert_by_Forall (P : A -> Prop) (x : A) (l : list A) :
  P x -> Forall P l -> Forall P (insert_by key lt x l).
Proof.
  intros Hx Hl. eapply Permutation_Forall; [apply insert_by_perm|].
  constructor; assumption.
Qed.

Lemma insert_by_sorted (x : A) (l : list A) :
  StronglySorted le l -> StronglySorted le (insert_by key lt x l).
Proof.
  induction 1 as [|y l Hs IH Hy]; simpl.
  - repeat constructor.
  - destruct (lt (key y) (key x)) eqn:E.
    + constructor; [exact IH|].
      apply insert_by_Forall; [|exact Hy].
      unfold le. apply lt_asym. exact E.
    + constructor; [constructor; assumption|].
      constructor; [exact E|].
      eapply Forall_impl; [|exact Hy].
      intros z Hz. apply le_trans with y; assumption.
Qed.

Lemma sorted_sorted (l : list A) : StronglySorted le (sorted key lt l).
Proof.
  induction l as [|x l IH]; simpl; [constructor|].
  apply insert_by_sorted. exact IH.
Qed.

Lemma sorted_fixpoint (l : list A) : Sorted le l -> sorted key lt l = l.
Proof.
  induction 1 as [|x l Hs IH Hx]; simpl; [reflexivity|].
  rewrite IH. destruct Hx as [|y l' Hxy]; simpl; [reflexivity|].
  unfold le in Hxy. rewrite Hxy. reflexivity.
Qed.

(** Elements that a predicate on keys selects stay in their order, as
    long as the predicate cannot hold on both sides of a [lt]. *)
Lemma insert_by_filter (p : A -> bool) (x : A) (l : list A) :
  (forall a b, lt (key a) (key b) = true -> p a = true -> p b = false) ->
  filter p (insert_by key lt x l) = filter p (x :: l).
Proof.
  intros Hp. induction l as [|y l IH]; [reflexivity|].
  simpl insert_by. destruct (lt (key y) (key x)) eqn:E; [|reflexivity].
  change (filter p (y :: insert_by key lt x l))
    with (if p y then y :: filter p (insert_by key lt x l)
          else filter p (insert_by key lt x l)).
  rewrite IH. simpl.
  destruct (p y) eqn:Py; [|reflexivity].
  rewrite (Hp _ _ E Py). reflexivity.
Qed.

Lemma sorted_filter (p : A -> bool) (l : list A) :
  (forall a b, lt (key a) (key b) = true -> p a = true -> p b = false) ->
  filter p (sorted key lt l) = filter p l.
Proof.
  intros Hp. induction l as [|x l IH]; [reflexivity|].
  simpl sorted. rewrite insert_by_filter by exact Hp.
  simpl. rewrite IH. reflexivity.
Qed.

End StableSort.

Lemma entry_le_ltb (a b : entry) :
  Date.ltb (snd b) (snd a) = false <-> entry_le a b.
Proof. apply date_ltb_false_le. Qed.

Lemma entry_sorted_iff (l : list entry) :
  Sorted (fun a b => Date.ltb (snd b) (snd a) = false) l
  <-> Sorted entry_le l.
Proof.
  split; induction 1 as [|x l Hs IH Hx]; constructor; auto;
    destruct Hx; constructor; apply entry_le_ltb; assumption.
Qed.

Lemma entry_strongly_sorted_iff (l : list entry) :
  StronglySorted (fun a b => Date.ltb (snd b) (snd a) = false) l
  <-> StronglySorted entry_le l.
Proof.
  split; induction 1 as [|x l Hs IH Hx]; constructor; auto;
    (eapply Forall_impl; [|exact Hx]); intros y Hy;
    apply entry_le_ltb; assumption.
Qed.

Lemma date_ltb_asym (a b : date) :
  Date.ltb a b = true -> Date.ltb b a = false.
Proof.
  intros H. apply date_ltb_true_lt in H. apply date_ltb_false_le. tauto.
Qed.

Lemma sort_entries_sorted (l : list entry) :
  StronglySorted entry_le (sort_entries_by_date l).
Proof.
  apply entry_strongly_sorted_iff. apply sorted_sorted.
  - intros a b. apply date_ltb_asym.
  - intros a b c Hab Hbc. apply date_ltb_false_le.
    apply date_ltb_false_le in Hab, Hbc.
    eapply date_le_trans; eassumption.
Qed.

Lemma sort_entries_fixpoint (l : list entry) :
  Sorted entry_le l -> sort_entries_by_date l = l.
Proof.
  intros H. apply sorted_fixpoint. apply entry_sorted_iff. exact H.
Qed.

Lemma sort_entries_stable (d : date) (l : list entry) :
  filter (has_date d) (sort_entries_by_date l) = filter (has_date d) l.
Proof.
  apply sorted_filter. intros a b Hlt Ha.
  unfold has_date in *. apply date_eqb_eq in Ha. apply date_eqb_neq.
  intros Hb. rewrite Ha, Hb in Hlt.
  apply date_ltb_true_lt in Hlt. tauto.
Qed.

(** C4.  [sort_entries_by_date] returns a permutation of its input in
    ascending order of date; records of one date keep their relative order
    (stability); an input already in ascending order is returned as it is,
    so sorting twice is sorting once (idempotence). *)
Theorem sort_entries_by_date_spec (l : list entry) :
  Permutation l (sort_entries_by_date l)
  /\ StronglySorted entry_le (sort_entries_by_date l)
  /\ (forall d, filter (has_date d) (sort_entries_by_date l)
                = filter (has_date d) l)
  /\ (Sorted entry_le l -> sort_entries_by_date l = l)
  /\ sort_entries_by_date (sort_entries_by_date l) = sort_entries_by_date l.
Proof.
  split; [apply sorted_perm|].
  split; [apply sort_entries_sorted|].
  split; [intros d; apply sort_entries_stable|].
  split; [apply sort_entries_fixpoint|].
  apply sort_entries_fixpoint, StronglySorted_Sorted, sort_entries_sorted.
Qed.

Lemma sample_entries_sorted : Sorted entry_le sample_entries.
Proof.
  unfold sample_entries.
  constructor; [constructor; constructor|].
  constructor. unfold entry_le, Date_order.le; simpl. lia.
Qed.

Lemma sort_entries_by_date_spec_witness :
  Sorted entry_le sample_entries
  /\ sort_entries_by_date sample_entries = sample_entries.
Proof.
  split; [exact sample_entries_sorted|].
  exact (proj1 (proj2 (proj2 (proj2
           (sort_entries_by_date_spec sample_entries))))
           sample_entries_sorted).
Defined.

(* ================================================================= *)
(** ** The filter *)

Lemma get_available_domains_restricted (entries : list entry) (target : date) :
  restricted_to target entries (get_available_domains entries target).
Proof.
  unfold get_available_domains.
  induction entries as [|[dom d] l IH]; simpl; [constructor|].
  destruct (Date.eqb d target) eqn:E; simpl.
  - apply date_eqb_eq in E. subst d. constructor. exact IH.
  - apply date_eqb_neq in E. constructor; assumption.
Qed.

Lemma restricted_to_functional (target : date) (l : list entry)
  (o1 o2 : list str) :
  restricted_to target l o1 -> restricted_to target l o2 -> o1 = o2.
Proof.
  intros H1. revert o2.
  induction H1; intros o2 H2; inversion H2; subst;
    try reflexivity; try congruence.
  - f_equal. auto.
  - auto.
Qed.

Lemma get_available_domains_In (entries : list entry) (target : date)
  (dom : str) :
  In dom (get_available_domains entries target) <-> In (dom, target) entries.
Proof.
  unfold get_available_domains. rewrite in_map_iff. split.
  - intros [[dom' d] [Hd Hin]]. simpl in Hd. subst dom'.
    apply filter_In in Hin. destruct Hin as [Hin E].
    apply date_eqb_eq in E. simpl in E. subst d. exact Hin.
  - intros Hin. exists (dom, target). split; [reflexivity|].
    apply filter_In. split; [exact Hin|]. apply date_eqb_refl.
Qed.

(** C2.  A domain is in the output of [get_available_domains] exactly when
    some record pairs it with the target date, and the output is the list
    of the domains of the records dated [target], in the order of the input
    and once per such record. *)
Theorem get_available_domains_spec (entries : list entry) (target : date) :
  (forall dom,
      In dom (get_available_domains entries target)
      <-> exists d, In (dom, d) entries /\ d = target)
  /\ restricted_to target entries (get_available_domains entries target)
  /\ (forall out, restricted_to target entries out ->
                  out = get_available_domains entries target)
  /\ length (get_available_domains entries target)
     = length (filter (has_date target) entries).
Proof.
  split; [|split; [|split]].
  - intros dom. rewrite get_available_domains_In. split.
    + intros H. exists target. auto.
    + intros [d [H ->]]. exact H.
  - apply get_available_domains_restricted.
  - intros out H. eapply restricted_to_functional; [exact H|].
    apply get_available_domains_restricted.
  - unfold get_available_domains. rewrite length_map. reflexivity.
Qed.

(* ================================================================= *)
(** ** Traces *)

Lemma bind_fst {A B} (m : M A) (k : A -> M B) :
  fst (bind m k)
  = fst m ++ match snd m with
             | Return a => fst (k a)
             | _ => []
             end.
Proof.
  destruct m as [tr [a|msg|e]]; simpl; rewrite ?app_nil_r; try reflexivity.
  destruct (k a); reflexivity.
Qed.

Lemma bind_Forall {A B} (P : event -> Prop) (m : M A) (k : A -> M B) :
  Forall P (fst m) -> (forall a, Forall P (fst (k a))) ->
  Forall P (fst (bind m k)).
Proof.
  intros Hm Hk. rewrite bind_fst. apply Forall_app. split; [exact Hm|].
  destruct (snd m); auto.
Qed.

Lemma prefix_app (p s : str) : prefix p (p ++ s) = true.
Proof.
  induction p as [|a p IH]; simpl; [reflexivity|].
  rewrite N.eqb_refl. exact IH.
Qed.

(* ================================================================= *)
(** ** The feed parser *)

Lemma parse_line_one_or_warning : one_or_warning parse_line.
Proof.
  intros line. unfold parse_line.
  assert (Hm : skip_warning
                 (Print (lit "Skipping malformed line: " ++ line)) = true).
  { unfold skip_warning. rewrite prefix_app. reflexivity. }
  assert (Hd : skip_warning
                 (Print (lit "Skipping invalid date format: " ++ line))
               = true).
  { unfold skip_warning. rewrite (prefix_app (lit "Skipping invalid date format: ")).
    apply orb_true_r. }
  destruct (split [TAB] line) as [|domain [|date_str [|x l]]];
    try (right; eexists; split; [reflexivity|exact Hm]).
  destruct (Date.strptime date_str) as [d|].
  - left. eexists. reflexivity.
  - right. eexists. split; [reflexivity|exact Hd].
Qed.

Lemma load_line_one_or_warning : one_or_warning load_line.
Proof.
  intros line. unfold load_line.
  assert (Hm : skip_warning
                 (Print (lit "Skipping malformed line: " ++ line)) = true).
  { unfold skip_warning. rewrite prefix_app. reflexivity. }
  assert (Hd : skip_warning
                 (Print (lit "Skipping invalid date format: " ++ line))
               = true).
  { unfold skip_warning. rewrite (prefix_app (lit "Skipping invalid date format: ")).
    apply orb_true_r. }
  destruct (split (lit ", ") (strip line)) as [|domain [|date_str [|x l]]];
    try (right; eexists; split; [reflexivity|exact Hm]).
  destruct (Date.strptime date_str) as [d|].
  - left. eexists. reflexivity.
  - right. eexists. split; [reflexivity|exact Hd].
Qed.

(** A loop over [lines] ends normally, and every line gives one entry or
    one warning. *)
Lemma for_lines_count (body : str -> M (option entry)) (lines : list str) :
  one_or_warning body ->
  exists tr entries,
    for_lines body lines = (tr, Return entries)
    /\ Forall (fun e => skip_warning e = true) tr
    /\ length entries + length tr = length lines.
Proof.
  intros Hb. induction lines as [|line rest IH]; simpl.
  - exists [], []. split; [reflexivity|]. split; [constructor|reflexivity].
  - destruct IH as [tr [entries [E [Hw Hn]]]]. rewrite E.
    destruct (Hb line) as [[e El]|[text [El Ht]]]; rewrite El; simpl;
      rewrite app_nil_r.
    + exists tr, (e :: entries).
      split; [reflexivity|]. split; [exact Hw|simpl; lia].
    + exists (Print text :: tr), entries.
      split; [reflexivity|]. split; [constructor; assumption|simpl; lia].
Qed.

Lemma count_warnings_all (tr : list event) :
  Forall (fun e => skip_warning e = true) tr ->
  count_warnings tr = length tr.
Proof.
  unfold count_warnings. induction 1 as [|e tr He Hs IH]; simpl;
    [reflexivity|]. rewrite He. simpl. rewrite IH. reflexivity.
Qed.

(** C3 (as amended).  [parse_file_content] ends normally on every text, all
    it prints are skipped-line warnings, and the records it returns and the
    warnings it prints are together as many as the lines of the text once
    the white space around the text is stripped. *)
Theorem parse_file_content_count (content : str) :
  exists tr entries,
    parse_file_content content = (tr, Return entries)
    /\ Forall (fun e => skip_warning e = true) tr
    /\ length entries + count_warnings tr
       = length (splitlines (strip content)).
Proof.
  destruct (for_lines_count (splitlines (strip content))
              parse_line_one_or_warning) as [tr [entries [E [Hw Hn]]]].
  exists tr, entries. split; [exact E|]. split; [exact Hw|].
  rewrite count_warnings_all by exact Hw. exact Hn.
Qed.

(** C3 (as stated) fails on a text that starts with an empty line: two
    lines, one record, no warning. *)
Lemma parse_file_content_leading_blank_line :
  let content := LF :: lit "foo.se" ++ [TAB] ++ lit "2024-01-05" in
  splitlines content = [[]; lit "foo.se" ++ [TAB] ++ lit "2024-01-05"]
  /\ parse_file_content content = ([], Return [(lit "foo.se", d_2024_01_05)])
  /\ ~ (forall text tr entries,
          parse_file_content text = (tr, Return entries) ->
          length entries + count_warnings tr = length (splitlines text)).
Proof.
  split; [reflexivity|]. split; [reflexivity|].
  intros H.
  specialize (H (LF :: lit "foo.se" ++ [TAB] ++ lit "2024-01-05")
                [] [(lit "foo.se", d_2024_01_05)] eq_refl).
  discriminate H.
Qed.

(* ================================================================= *)
(** ** The advisory client *)

(** C10.  On an empty domain list [analyze_domains_with_chatgpt] returns
    the fixed text and its trace is empty: no client is made and no request
    is sent, whatever the key and the service. *)
Theorem analyze_no_domains (w : World) :
  analyze_domains_with_chatgpt w []
  = ([], Return (lit "No domains provided for analysis.")).
Proof. reflexivity. Qed.

(** With a key, whatever the request does, the call returns a text after
    one request. *)
Lemma analyze_with_key_returns (w : World) (key : str) (domains : list str) :
  api_key w = Some key -> domains <> [] ->
  exists text,
    analyze_domains_with_chatgpt w domains
    = ([ChatRequest (prompt_of domains)], Return text).
Proof.
  intros Hk Hd. destruct domains as [|dom rest]; [congruence|].
  unfold analyze_domains_with_chatgpt. rewrite Hk. simpl.
  destruct (chat w _) as [[|[content|] cs]|msg|msg]; eexists; reflexivity.
Qed.

Lemma analyze_request_failure (w : World) (key : str) (domains : list str)
  (msg : str) :
  api_key w = Some key -> domains <> [] ->
  (chat w (prompt_of domains) = ChatOpenAIError msg ->
   snd (analyze_domains_with_chatgpt w domains)
   = Return (lit "OpenAI API Error: " ++ msg))
  /\ (chat w (prompt_of domains) = ChatOtherError msg ->
      snd (analyze_domains_with_chatgpt w domains)
      = Return (lit "Unexpected Error: " ++ msg)).
Proof.
  intros Hk Hd. destruct domains as [|dom rest]; [congruence|].
  unfold analyze_domains_with_chatgpt. rewrite Hk.
  split; intros Hc; simpl; rewrite Hc; reflexivity.
Qed.

(** Without a key the constructor of the client raises before the [try]
    is entered, whatever the domains and the service. *)
Lemma analyze_without_key (w : World) (domains : list str) :
  api_key w = None -> domains <> [] ->
  exists msg,
    analyze_domains_with_chatgpt w domains = ([], Raise (OpenAIError msg)).
Proof.
  intros Hk Hd. destruct domains as [|dom rest]; [congruence|].
  unfold analyze_domains_with_chatgpt. rewrite Hk.
  eexists. reflexivity.
Qed.

(** C8 fails without an API key: the client is made before the [try], the
    [OpenAIError] of its constructor leaves the function and ends the run
    after the output file is written. *)
Theorem analyze_without_key_raises :
  let w := fresh_world sample_feed (lit "2024-01-05") None in
  analyze_domains_with_chatgpt w [lit "foo.se"]
  = ([], Raise (OpenAIError (lit "The api_key client option must be set either by passing api_key to the client or by setting the OPENAI_API_KEY environment variable")))
  /\ get_available_domains sample_entries d_2024_01_05 = [lit "foo.se"]
  /\ snd (main w)
     = Raise (OpenAIError (lit "The api_key client option must be set either by passing api_key to the client or by setting the OPENAI_API_KEY environment variable")).
Proof. repeat split. Qed.

(* ================================================================= *)
(** ** Loading the cache file *)

(** C7 fails on an empty file: [next(file)] raises [StopIteration], which
    leaves [load_sorted_entries] and ends the run. *)
Theorem load_empty_file_raises (filename d : str) :
  load_sorted_entries filename (Contents []) = ([], Raise StopIteration)
  /\ main (cached_world [] d)
     = ([Print (lit "Loading sorted data from file...")],
        Raise StopIteration).
Proof. split; reflexivity. Qed.

(** With a first line in the file the load ends normally. *)
Lemma load_with_header_returns (filename text : str) :
  file_lines text <> [] ->
  exists tr entries,
    load_sorted_entries filename (Contents text) = (tr, Return entries).
Proof.
  intros H. unfold load_sorted_entries.
  destruct (file_lines text) as [|header lines]; [congruence|].
  destruct (for_lines_count lines load_line_one_or_warning)
    as [tr [entries [E _]]].
  exists tr, entries. exact E.
Qed.

(* ================================================================= *)
(** ** The run *)

(** C6 (as amended).  On the fetch path, a feed without one valid record
    ends the run with [sys.exit] and its message, after the download and
    the warnings of the parser and before the filter. *)
Theorem empty_feed_is_fatal (w : World) (body : str) (tr : list event) :
  cache w = Missing ->
  feed w = HttpOk body ->
  parse_file_content body = (tr, Return []) ->
  main w
  = (Print (lit "Downloading and processing domain data...")
     :: HttpGet DOMAIN_DATA_URL :: tr,
     SysExit (lit "Error: No valid entries found.")).
Proof.
  intros Hc Hf Hp.
  unfold main, main_data, download_and_process_data, download_file.
  rewrite Hc, Hf. simpl. rewrite Hp. simpl. rewrite app_nil_r. reflexivity.
Qed.

Lemma empty_feed_is_fatal_witness :
  main (fresh_world (lit "bad-line") (lit "2024-01-05") None)
  = ([Print (lit "Downloading and processing domain data...");
      HttpGet DOMAIN_DATA_URL;
      Print (lit "Skipping malformed line: bad-line")],
     SysExit (lit "Error: No valid entries found.")).
Proof.
  apply (@empty_feed_is_fatal
           (fresh_world (lit "bad-line") (lit "2024-01-05") None)
           (lit "bad-line")); reflexivity.
Defined.

(** C6 (as stated) fails on the cache path: a cache file with its header
    and no record gives an empty dataset, and the run goes on to the filter
    and ends normally. *)
Lemma empty_cache_is_not_fatal :
  let w := cached_world (lit "domain, date" ++ [LF]) (lit "2024-01-05") in
  main_data w = ([Print (lit "Loading sorted data from file...")], Return [])
  /\ main w
     = ([Print (lit "Loading sorted data from file...");
         Print (lit "No domains available on 2024-01-05.")],
        Return tt)
  /\ ~ (forall w' tr, main_data w' = (tr, Return []) ->
                      exists tr' msg, main w' = (tr', SysExit msg)).
Proof.
  split; [reflexivity|]. split; [reflexivity|].
  intros H.
  destruct (H (cached_world (lit "domain, date" ++ [LF]) (lit "2024-01-05"))
              _ eq_refl) as [tr' [msg E]].
  discriminate E.
Qed.

Lemma for_lines_prints (w : World) (body : str -> M (option entry))
  (lines : list str) :
  one_or_warning body -> Forall (data_event w) (fst (for_lines body lines)).
Proof.
  intros Hb. destruct (for_lines_count lines Hb) as [tr [entries [E [Hw _]]]].
  rewrite E. simpl. eapply Forall_impl; [|exact Hw].
  intros [text|url|p c|prompt] He; simpl in *; try discriminate; exact I.
Qed.

Lemma download_and_process_data_events (w : World) (url : str) :
  Forall (data_event w) (fst (download_and_process_data w url)).
Proof.
  unfold download_and_process_data, download_file.
  apply bind_Forall.
  - destruct (feed w); simpl; repeat constructor.
  - intros [content|]; [|constructor].
    apply bind_Forall; [apply for_lines_prints, parse_line_one_or_warning|].
    intros [|e l]; constructor.
Qed.

Lemma main_data_events (w : World) :
  Forall (data_event w) (fst (main_data w)).
Proof.
  unfold main_data. destruct (cache w) as [|err|text|read].
  - apply bind_Forall; [repeat constructor|]. intros _.
    apply bind_Forall; [apply download_and_process_data_events|].
    intros entries. apply bind_Forall; [|intros _; constructor].
    unfold save_to_file. destruct (write_error w (SORTED_FILE w));
      simpl; repeat constructor.
  - simpl. repeat constructor.
  - apply bind_Forall; [repeat constructor|]. intros _.
    unfold load_sorted_entries.
    destruct (file_lines text) as [|header lines]; [constructor|].
    apply for_lines_prints, load_line_one_or_warning.
  - apply bind_Forall; [repeat constructor|]. intros _.
    unfold load_sorted_entries.
    destruct (file_lines read) as [|header lines]; [constructor|].
    apply bind_Forall; [|intros _; constructor].
    apply for_lines_prints, load_line_one_or_warning.
Qed.

Lemma path_join_inj (dir a b : str) :
  path_join dir a = path_join dir b -> a = b.
Proof.
  unfold path_join. destruct (rev dir) as [|c r]; [auto|].
  destruct (is_char (chr "/") c); intros H.
  - apply app_inv_head in H. exact H.
  - apply app_inv_head in H. apply app_inv_head in H. exact H.
Qed.

Lemma available_file_not_cache (w : World) (target : date) :
  SORTED_FILE w <> available_file w target.
Proof.
  unfold SORTED_FILE, available_file. intros H.
  apply path_join_inj in H. discriminate H.
Qed.

(** C9.  When the run has its data and the filter finds no domain for the
    target date, the run prints the no-domains message and ends: nothing
    else follows the data phase, so no request goes to the advisory service
    and the output file of the query is not written, whatever the advisory
    flag says. *)
Theorem no_match_skips_advisory (w : World) (tr : list event)
  (entries : list entry) (date_arg : str) (target : date) :
  main_data w = (tr, Return entries) ->
  arg_date w = Some date_arg ->
  date_arg <> [] ->
  Date.strptime date_arg = Some target ->
  get_available_domains entries target = [] ->
  main w
  = (tr ++ [Print (lit "No domains available on "
                   ++ Date.isoformat target ++ lit ".")],
     Return tt)
  /\ Forall (fun e => is_chat_request e = false
                      /\ ~ writes_to (available_file w target) e)
       (fst (main w)).
Proof.
  intros Hdata Harg Hne Hparse Hnone.
  assert (Hmain :
            main w
            = (tr ++ [Print (lit "No domains available on "
                             ++ Date.isoformat target ++ lit ".")],
               Return tt)).
  { unfold main. rewrite Hdata. unfold bind, main_query. rewrite Harg.
    destruct date_arg as [|c rest]; [congruence|].
    rewrite Hparse, Hnone. reflexivity. }
  split; [exact Hmain|].
  rewrite Hmain. simpl. apply Forall_app. split.
  - pose proof (main_data_events w) as Hev. rewrite Hdata in Hev.
    simpl in Hev. eapply Forall_impl; [|exact Hev].
    intros [text|url|p c|prompt] He; simpl in *; try tauto.
    split; [reflexivity|]. intros Hp.
    apply (@available_file_not_cache w target). congruence.
  - constructor; [|constructor]. simpl. tauto.
Qed.

Lemma no_match_skips_advisory_witness :
  let w := fresh_world sample_feed (lit "2024-01-01") (Some (lit "sk-test")) in
  arg_chatgpt w = true
  /\ main w
     = (fst (main_data w)
        ++ [Print (lit "No domains available on 2024-01-01.")],
        Return tt).
Proof.
  split; [reflexivity|].
  apply (@no_match_skips_advisory
           (fresh_world sample_feed (lit "2024-01-01") (Some (lit "sk-test")))
           _ sample_entries (lit "2024-01-01") (mkdate 2024 1 1)).
  - reflexivity.
  - reflexivity.
  - discriminate.
  - reflexivity.
  - reflexivity.
Defined.

(* ================================================================= *)
(** ** Digits *)

Local Open Scope Z_scope.

(** Linear arithmetic with division and remainder by constants. *)
Ltac div_lia := Z.div_mod_to_equations; lia.

Lemma code_digit_char (k : Z) : 0 <= k < 10 -> code (digit_char k) = 48 + k.
Proof. intros H. unfold code, digit_char. lia. Qed.

Lemma in_range_iff (lo hi : Z) (c : char) :
  in_range lo hi c = true <-> lo <= code c <= hi.
Proof. unfold in_range. rewrite andb_true_iff, !Z.leb_le. tauto. Qed.

Lemma in_range_false_iff (lo hi : Z) (c : char) :
  in_range lo hi c = false <-> ~ (lo <= code c <= hi).
Proof.
  rewrite <- in_range_iff. destruct (in_range lo hi c); split; congruence.
Qed.

Lemma zero_of_digit_char (k : Z) :
  0 <= k < 10 -> zero_of (digit_char k) = Some 48.
Proof.
  intros H.
  assert (H1 : in_range 48 (48 + 9) (digit_char k) = true).
  { apply in_range_iff. rewrite code_digit_char by lia. lia. }
  unfold zero_of, decimal_zeros. cbn [find]. rewrite H1. reflexivity.
Qed.

Lemma zero_of_spec (c : char) (z : Z) :
  zero_of c = Some z -> In z decimal_zeros /\ z <= code c <= z + 9.
Proof.
  unfold zero_of. intros H. apply find_some in H. destruct H as [Hin Hr].
  split; [exact Hin|]. apply in_range_iff. exact Hr.
Qed.

Lemma digit_val_digit_char (k : Z) :
  0 <= k < 10 -> digit_val (digit_char k) = k.
Proof.
  intros H. unfold digit_val.
  rewrite zero_of_digit_char, code_digit_char by lia. lia.
Qed.

Lemma in_range_digit (lo hi : Z) (c : char) :
  in_range lo hi c = true ->
  exists k, lo - 48 <= k <= hi - 48 /\ c = digit_char k.
Proof.
  intros H. apply in_range_iff in H. exists (code c - 48). split; [lia|].
  unfold digit_char, code in *. lia.
Qed.

Lemma is_decimal_digit_char (k : Z) :
  0 <= k < 10 -> is_decimal (digit_char k) = true.
Proof.
  intros H. unfold is_decimal. rewrite zero_of_digit_char by lia.
  reflexivity.
Qed.

Lemma isspace_false_iff (c : char) :
  isspace c = false
  <-> ~ (9 <= code c <= 13) /\ ~ (28 <= code c <= 32)
      /\ code c <> 133 /\ code c <> 160 /\ code c <> 5760
      /\ ~ (8192 <= code c <= 8202) /\ ~ (8232 <= code c <= 8233)
      /\ code c <> 8239 /\ code c <> 8287 /\ code c <> 12288.
Proof.
  unfold isspace. rewrite !orb_false_iff, !in_range_false_iff. lia.
Qed.

Lemma isspace_digit_char (k : Z) :
  0 <= k < 10 -> isspace (digit_char k) = false.
Proof.
  intros H. apply isspace_false_iff. rewrite code_digit_char by lia. lia.
Qed.

(** A decimal digit of any script has a value from 0 to 9 and is no white
    space. *)
Lemma decimal_digit_val (c : char) :
  is_decimal c = true -> 0 <= digit_val c <= 9.
Proof.
  unfold is_decimal, digit_val.
  destruct (zero_of c) as [z|] eqn:E; [|discriminate].
  intros _. apply zero_of_spec in E. lia.
Qed.

Lemma decimal_zeros_no_space :
  Forall (fun z =>
            forall x, z <= x <= z + 9 ->
              ~ (9 <= x <= 13) /\ ~ (28 <= x <= 32)
              /\ x <> 133 /\ x <> 160 /\ x <> 5760
              /\ ~ (8192 <= x <= 8202) /\ ~ (8232 <= x <= 8233)
              /\ x <> 8239 /\ x <> 8287 /\ x <> 12288)
    decimal_zeros.
Proof. unfold decimal_zeros. repeat (constructor; [intros x Hx; lia|]). constructor. Qed.

Lemma decimal_not_space (c : char) :
  is_decimal c = true -> isspace c = false.
Proof.
  unfold is_decimal. destruct (zero_of c) as [z|] eqn:E; [|discriminate].
  intros _. apply zero_of_spec in E. destruct E as [Hin Hr].
  apply isspace_false_iff.
  pose proof decimal_zeros_no_space as H. rewrite Forall_forall in H.
  exact (H z Hin (code c) Hr).
Qed.

Lemma is_char_eq (a c : char) : is_char a c = true -> c = a.
Proof. unfold is_char. intros H. apply N.eqb_eq in H. auto. Qed.

(** *** [strip] on a text without white space at its ends *)

Lemma lstrip_cons_nonspace (c : char) (s : str) :
  isspace c = false -> lstrip (c :: s) = c :: s.
Proof. intros H. simpl. rewrite H. reflexivity. Qed.

Lemma rstrip_snoc_nonspace (s : str) (c : char) :
  isspace c = false -> rstrip (s ++ [c]) = s ++ [c].
Proof.
  intros H. unfold rstrip. rewrite rev_app_distr.
  cbn [rev app lstrip]. rewrite H.
  cbn [rev]. rewrite rev_involutive. reflexivity.
Qed.

Lemma rstrip_snoc_space (s : str) (c : char) :
  isspace c = true -> rstrip (s ++ [c]) = rstrip s.
Proof.
  intros H. unfold rstrip. rewrite rev_app_distr.
  cbn [rev app lstrip]. rewrite H. reflexivity.
Qed.

Lemma int_four_decimal (a b c e : char) :
  is_decimal a = true -> is_decimal b = true ->
  is_decimal c = true -> is_decimal e = true ->
  Date.int [a; b; c; e]
  = 1000 * digit_val a + 100 * digit_val b + 10 * digit_val c + digit_val e.
Proof.
  intros Ha Hb Hc He. unfold Date.int, strip.
  rewrite lstrip_cons_nonspace by (apply decimal_not_space; exact Ha).
  change [a; b; c; e] with ([a; b; c] ++ [e]).
  rewrite rstrip_snoc_nonspace by (apply decimal_not_space; exact He).
  cbn [app fold_left]. lia.
Qed.

Lemma int_two_decimal (a b : char) :
  is_decimal a = true -> is_decimal b = true ->
  Date.int [a; b] = 10 * digit_val a + digit_val b.
Proof.
  intros Ha Hb. unfold Date.int, strip.
  rewrite lstrip_cons_nonspace by (apply decimal_not_space; exact Ha).
  change [a; b] with ([a] ++ [b]).
  rewrite rstrip_snoc_nonspace by (apply decimal_not_space; exact Hb).
  cbn [app fold_left]. lia.
Qed.

Lemma int_four_digits (a b c e : Z) :
  0 <= a < 10 -> 0 <= b < 10 -> 0 <= c < 10 -> 0 <= e < 10 ->
  Date.int [digit_char a; digit_char b; digit_char c; digit_char e]
  = 1000 * a + 100 * b + 10 * c + e.
Proof.
  intros Ha Hb Hc He.
  rewrite int_four_decimal by (apply is_decimal_digit_char; lia).
  rewrite !digit_val_digit_char by lia. reflexivity.
Qed.

Lemma zero_pad_four (y : Z) :
  Date.zero_pad 4 y
  = [digit_char (y / 10 / 10 / 10 mod 10); digit_char (y / 10 / 10 mod 10);
     digit_char (y / 10 mod 10); digit_char (y mod 10)].
Proof. reflexivity. Qed.

Lemma int_zero_pad_four (y : Z) :
  0 <= y <= 9999 -> Date.int (Date.zero_pad 4 y) = y.
Proof.
  intros H. rewrite zero_pad_four.
  rewrite int_four_digits by (apply Z.mod_pos_bound; lia). div_lia.
Qed.

Lemma zero_pad_four_digits (a b c e : Z) :
  0 <= a < 10 -> 0 <= b < 10 -> 0 <= c < 10 -> 0 <= e < 10 ->
  Date.zero_pad 4 (1000 * a + 100 * b + 10 * c + e)
  = [digit_char a; digit_char b; digit_char c; digit_char e].
Proof.
  intros Ha Hb Hc He. rewrite zero_pad_four.
  repeat f_equal; div_lia.
Qed.

(* ================================================================= *)
(** ** What ['%Y-%m-%d'] reads *)

Lemma take_classes_spec (cls : list (char -> bool)) (s x r : str) :
  Date.take_classes cls s = Some (x, r) ->
  s = x ++ r /\ Forall2 (fun p c => p c = true) cls x.
Proof.
  revert s x r. induction cls as [|p cls IH]; intros s x r; simpl.
  - intros H. inversion H. subst. split; [reflexivity|constructor].
  - destruct s as [|c s]; [discriminate|].
    destruct (p c) eqn:Hp; [|discriminate].
    destruct (Date.take_classes cls s) as [[m r']|] eqn:E; [|discriminate].
    intros H. inversion H. subst.
    destruct (IH _ _ _ E) as [-> HF].
    split; [reflexivity|]. constructor; assumption.
Qed.

Lemma classes_In (cls : list (char -> bool)) (s x r : str) :
  In (x, r) (Date.classes cls s) ->
  s = x ++ r /\ Forall2 (fun p c => p c = true) cls x.
Proof.
  unfold Date.classes.
  destruct (Date.take_classes cls s) as [[x' r']|] eqn:E; simpl;
    [|tauto].
  intros [H|[]]. inversion H. subst. apply take_classes_spec. exact E.
Qed.

Lemma month_text_two (n : Z) (s : str) :
  s = Date.zero_pad 2 n -> month_text n s.
Proof. intros ->. constructor. Qed.

Lemma month_text_one (n : Z) (s : str) :
  n < 10 -> s = Date.zero_pad 1 n -> month_text n s.
Proof. intros H ->. constructor. exact H. Qed.

Lemma day_text_two (n : Z) (s : str) :
  s = Date.zero_pad 2 n -> day_text n s.
Proof. intros ->. constructor. Qed.

Lemma day_text_one (n : Z) (s : str) :
  n < 10 -> s = Date.zero_pad 1 n -> day_text n s.
Proof. intros H ->. constructor. exact H. Qed.

Lemma day_text_space (n : Z) (s : str) :
  n < 10 -> s = (chr " ") :: Date.zero_pad 1 n -> day_text n s.
Proof. intros H ->. constructor. exact H. Qed.

(** Splits a hypothesis [lo <= k <= hi] with small constant bounds into
    the values of [k]. *)
Ltac enum_digit k :=
  let H := fresh "Hk" in
  assert (H : k = 0 \/ k = 1 \/ k = 2 \/ k = 3 \/ k = 4 \/ k = 5 \/ k = 6
              \/ k = 7 \/ k = 8 \/ k = 9) by lia;
  repeat (destruct H as [H|H]; [subst k|]); try subst k; try lia.

(** Takes a hypothesis [Forall2 _ cls x] on a list of classes apart. *)
Ltac split_classes H :=
  repeat match type of H with
         | Forall2 _ (_ :: _) _ =>
             let c := fresh "c" in
             let x := fresh "x" in
             let Hc := fresh "Hc" in
             inversion H as [|? c ? x Hc H']; subst; clear H;
             rename H' into H
         | Forall2 _ [] _ => inversion H; subst; clear H
         end.

Ltac known_chars :=
  repeat match goal with
         | H : is_char _ ?c = true |- _ => apply is_char_eq in H; subst c
         | H : in_range _ _ ?c = true |- _ =>
             let k := fresh "k" in
             let Hk := fresh "Hk" in
             apply in_range_digit in H; destruct H as [k [Hk ->]];
             enum_digit k
         end.

Lemma re_m_In (s m r : str) :
  In (m, r) (Date.re_m s) ->
  s = m ++ r /\ month_text (Date.int m) m /\ 1 <= Date.int m <= 12.
Proof.
  unfold Date.re_m, Date.alt. rewrite !in_app_iff.
  intros [H|[H|H]]; apply classes_In in H; destruct H as [-> H];
    split; try reflexivity; split_classes H; known_chars;
    (split; [first [apply month_text_two; vm_compute; reflexivity
                   |apply month_text_one; vm_compute; reflexivity]
            |split; apply Z.leb_le; vm_compute; reflexivity]).
Qed.

Lemma day_text_any_script (t : Z) (u : char) :
  1 <= t <= 2 -> is_decimal u = true ->
  day_text (Date.int [digit_char t; u]) [digit_char t; u]
  /\ 1 <= Date.int [digit_char t; u] <= 31.
Proof.
  intros Ht Hu.
  rewrite int_two_decimal
    by first [apply is_decimal_digit_char; lia|exact Hu].
  rewrite digit_val_digit_char by lia.
  pose proof (decimal_digit_val u Hu) as Hv.
  split; [|lia]. apply day_any_script; [exact Ht|exact Hu|reflexivity].
Qed.

Lemma re_d_In (s d r : str) :
  In (d, r) (Date.re_d s) ->
  s = d ++ r /\ day_text (Date.int d) d /\ 1 <= Date.int d <= 31.
Proof.
  unfold Date.re_d, Date.alt. rewrite !in_app_iff.
  intros [H|[H|[H|[H|H]]]]; apply classes_In in H; destruct H as [-> H];
    (split; [reflexivity|]); split_classes H.
  - known_chars;
      (split; [apply day_text_two; vm_compute; reflexivity
              |split; apply Z.leb_le; vm_compute; reflexivity]).
  - match goal with
    | H : in_range _ _ ?c = true |- _ =>
        apply in_range_digit in H; destruct H as [t [Ht ->]]
    end.
    apply day_text_any_script; [lia|assumption].
  - known_chars;
      (split; [apply day_text_two; vm_compute; reflexivity
              |split; apply Z.leb_le; vm_compute; reflexivity]).
  - known_chars;
      (split; [apply day_text_one; vm_compute; reflexivity
              |split; apply Z.leb_le; vm_compute; reflexivity]).
  - known_chars;
      (split; [apply day_text_space; vm_compute; reflexivity
              |split; apply Z.leb_le; vm_compute; reflexivity]).
Qed.

Lemma re_dash_In (s x r : str) :
  In (x, r) (Date.re_dash s) -> s = (chr "-") :: r.
Proof.
  unfold Date.re_dash. intros H. apply classes_In in H.
  destruct H as [-> H]. split_classes H. known_chars. reflexivity.
Qed.

Lemma re_month_day_In (s m d rest : str) :
  In (m, d, rest) (Date.re_month_day s) ->
  s = lit "-" ++ m ++ lit "-" ++ d ++ rest
  /\ month_text (Date.int m) m /\ day_text (Date.int d) d
  /\ 1 <= Date.int m <= 12 /\ 1 <= Date.int d <= 31.
Proof.
  unfold Date.re_month_day. intros H.
  apply in_flat_map in H. destruct H as [[x1 r2] [H1 H]].
  apply in_flat_map in H. destruct H as [[m' r3] [H2 H]].
  apply in_flat_map in H. destruct H as [[x3 r4] [H3 H]].
  apply in_map_iff in H. destruct H as [[d' r5] [E H4]].
  inversion E. subst m' d' r5.
  apply re_dash_In in H1, H3.
  apply re_m_In in H2. destruct H2 as [E2 [Hm Hmr]].
  apply re_d_In in H4. destruct H4 as [E4 [Hd Hdr]].
  subst s r2 r3 r4. simpl. repeat split; auto; lia.
Qed.

Lemma re_Y_spec (s Y r : str) :
  In (Y, r) (Date.re_Y s) ->
  s = Y ++ r /\ year_text (Date.int Y) Y /\ 0 <= Date.int Y <= 9999.
Proof.
  unfold Date.re_Y. intros H. apply classes_In in H. destruct H as [-> H].
  split; [reflexivity|]. split_classes H.
  rewrite int_four_decimal by assumption.
  split; [constructor; auto|].
  repeat match goal with
         | H : is_decimal ?c = true |- _ =>
             apply decimal_digit_val in H
         end.
  lia.
Qed.

(** Every date [strptime] returns is a valid one, and the text it was
    given is one of the texts of that date. *)
Lemma strptime_sound (s : str) (dt : date) :
  Date.strptime s = Some dt -> Date.valid dt /\ date_text dt s.
Proof.
  unfold Date.strptime, Date.format_regex.
  destruct (flat_map _ (Date.re_Y s)) as [|[[[Y m] d] rest] l] eqn:E;
    [discriminate|].
  assert (Hin : In (Y, m, d, rest)
                  (flat_map (fun '(Y, r1) =>
                     map (fun '(m, d, r) => (Y, m, d, r))
                       (Date.re_month_day r1)) (Date.re_Y s))).
  { rewrite E. left. reflexivity. }
  clear E. destruct rest as [|c rest]; [|discriminate].
  destruct (Date.check_date_fields _ _ _) eqn:Hc; [|discriminate].
  intros H. inversion H. subst dt. clear H.
  split; [exact Hc|].
  apply in_flat_map in Hin. destruct Hin as [[Y' r1] [HY Hin]].
  apply in_map_iff in Hin. destruct Hin as [[[m' d'] r'] [E Hin]].
  inversion E. subst Y' m' d' r'. clear E.
  apply re_Y_spec in HY. destruct HY as [-> [HY _]].
  apply re_month_day_In in Hin.
  destruct Hin as [-> [Hm [Hd _]]].
  exists Y, m, d. cbn [year month day]. rewrite app_nil_r.
  split; [exact HY|]. split; [exact Hm|]. split; [exact Hd|reflexivity].
Qed.

(** The year group takes four decimal digits. *)
Lemma re_Y_year_text (y : Z) (Y r : str) :
  year_text y Y -> Date.re_Y (Y ++ r) = [(Y, r)] /\ Date.int Y = y.
Proof.
  intros [a b c e Ha Hb Hc He ->]. split.
  - unfold Date.re_Y, Date.classes. cbn [app Date.take_classes].
    rewrite Ha, Hb, Hc, He. reflexivity.
  - apply int_four_decimal; assumption.
Qed.

Lemma re_Y_zero_pad (y : Z) (r : str) :
  Date.re_Y (Date.zero_pad 4 y ++ r) = [(Date.zero_pad 4 y, r)].
Proof.
  rewrite zero_pad_four. unfold Date.re_Y, Date.classes.
  cbn [app Date.take_classes].
  rewrite !is_decimal_digit_char by (apply Z.mod_pos_bound; lia).
  reflexivity.
Qed.

Lemma month_cases (m : Z) :
  1 <= m <= 12 ->
  m = 1 \/ m = 2 \/ m = 3 \/ m = 4 \/ m = 5 \/ m = 6 \/ m = 7 \/ m = 8
  \/ m = 9 \/ m = 10 \/ m = 11 \/ m = 12.
Proof. lia. Qed.

Lemma day_cases (d : Z) :
  1 <= d <= 31 ->
  d = 1 \/ d = 2 \/ d = 3 \/ d = 4 \/ d = 5 \/ d = 6 \/ d = 7 \/ d = 8
  \/ d = 9 \/ d = 10 \/ d = 11 \/ d = 12 \/ d = 13 \/ d = 14 \/ d = 15
  \/ d = 16 \/ d = 17 \/ d = 18 \/ d = 19 \/ d = 20 \/ d = 21 \/ d = 22
  \/ d = 23 \/ d = 24 \/ d = 25 \/ d = 26 \/ d = 27 \/ d = 28 \/ d = 29
  \/ d = 30 \/ d = 31.
Proof. lia. Qed.

Ltac each_case H := repeat (destruct H as [H|H]); subst.

(** The day group takes the whole of each text of a day. *)
Lemma re_d_complete (d : Z) (D : str) :
  1 <= d <= 31 -> day_text d D ->
  exists l, Date.re_d D = (D, []) :: l /\ Date.int D = d.
Proof.
  intros Hr Ht. destruct Ht as [|Hlt|Hlt|t u Ht Hu ->].
  - apply day_cases in Hr. each_case Hr;
      (eexists; split; [vm_compute; reflexivity|vm_compute; reflexivity]).
  - apply day_cases in Hr. each_case Hr; try lia;
      (eexists; split; [vm_compute; reflexivity|vm_compute; reflexivity]).
  - apply day_cases in Hr. each_case Hr; try lia;
      (eexists; split; [vm_compute; reflexivity|vm_compute; reflexivity]).
  - assert (H3 : is_char (chr "3") (digit_char t) = false).
    { assert (Hc : t = 1 \/ t = 2) by lia.
      destruct Hc as [-> | ->]; reflexivity. }
    assert (H12 : in_range 49 50 (digit_char t) = true).
    { apply in_range_iff. rewrite code_digit_char by lia. lia. }
    unfold Date.re_d, Date.alt, Date.classes.
    cbn [Date.take_classes]. rewrite H3, H12, Hu. cbn [app].
    eexists. split; [reflexivity|].
    rewrite int_two_decimal
      by first [apply is_decimal_digit_char; lia|exact Hu].
    rewrite digit_val_digit_char by lia. reflexivity.
Qed.

(** The first match of the expression after the year on the texts of a
    month and a day takes both whole. *)
Lemma re_month_day_complete (m d : Z) (M D : str) :
  1 <= m <= 12 -> 1 <= d <= 31 -> month_text m M -> day_text d D ->
  exists l,
    Date.re_month_day (lit "-" ++ M ++ lit "-" ++ D) = (M, D, []) :: l
    /\ Date.int M = m /\ Date.int D = d.
Proof.
  intros Hm Hd HM HD.
  destruct (re_d_complete Hd HD) as [l [El Ed]].
  assert (Hstep : Date.re_month_day (lit "-" ++ M ++ lit "-" ++ D)
                  = map (fun '(d, r5) => (M, d, r5)) (Date.re_d D)
                  /\ Date.int M = m).
  { apply month_cases in Hm. unfold Date.re_month_day.
    change (lit "-") with [45%N].
    destruct HM as [|Hlt]; each_case Hm; try lia;
      (split; [|vm_compute; reflexivity]);
      cbn [app Date.zero_pad];
      cbv - [Date.re_d map app flat_map];
      cbn [flat_map app]; rewrite ?app_nil_r; reflexivity. }
  destruct Hstep as [-> EM]. rewrite El. simpl. eauto.
Qed.

Lemma year_text_zero_pad (y : Z) :
  0 <= y <= 9999 -> year_text y (Date.zero_pad 4 y).
Proof.
  intros H. rewrite zero_pad_four.
  constructor; try (apply is_decimal_digit_char, Z.mod_pos_bound; lia).
  rewrite !digit_val_digit_char by (apply Z.mod_pos_bound; lia). div_lia.
Qed.

Lemma strptime_complete (s : str) (dt : date) :
  Date.valid dt -> date_text dt s -> Date.strptime s = Some dt.
Proof.
  destruct dt as [y m d]. unfold Date.valid. cbn [year month day].
  intros Hv [Y [M [D [HY [HM [HD ->]]]]]]. cbn [year month day] in *.
  pose proof Hv as Hc. unfold Date.check_date_fields in Hc.
  rewrite !andb_true_iff, !Z.leb_le in Hc.
  assert (Hd31 : d <= 31).
  { destruct Hc as [_ Hd]. revert Hd. unfold Date.days_in_month.
    repeat match goal with |- context [if ?b then _ else _] => destruct b end;
      lia. }
  destruct (@re_month_day_complete m d M D) as [l [E [EM ED]]];
    try lia; try assumption.
  destruct (@re_Y_year_text y Y (lit "-" ++ M ++ lit "-" ++ D) HY)
    as [EY EI].
  unfold Date.strptime, Date.format_regex.
  rewrite EY. cbn [flat_map]. rewrite app_nil_r, E.
  cbn [map]. rewrite EI, EM, ED, Hv.
  reflexivity.
Qed.

(** [strptime] reads exactly the texts of valid dates. *)
Lemma strptime_spec (s : str) (dt : date) :
  Date.strptime s = Some dt <-> Date.valid dt /\ date_text dt s.
Proof.
  split; [apply strptime_sound|].
  intros [Hv Ht]. apply strptime_complete; assumption.
Qed.

Lemma strptime_isoformat (dt : date) :
  Date.valid dt -> Date.strptime (Date.isoformat dt) = Some dt.
Proof.
  intros Hv. apply strptime_complete; [exact Hv|].
  exists (Date.zero_pad 4 (year dt)), (Date.zero_pad 2 (month dt)),
    (Date.zero_pad 2 (day dt)).
  split; [|split; [constructor|split; [constructor|reflexivity]]].
  apply year_text_zero_pad. unfold Date.valid, Date.check_date_fields in Hv.
  rewrite !andb_true_iff, !Z.leb_le in Hv. lia.
Qed.

(* ================================================================= *)
(** ** The date field of a feed line *)

(** C5 (as amended).  A feed line of two tab-separated fields gives a
    Record exactly when its date field is a text that ['%Y-%m-%d'] reads
    as a valid calendar date: four decimal digits, of any script, of a year
    from 1 on, a dash, the month in digits 0 to 9 with or without its
    leading zero, a dash, and the day in digits 0 to 9 with its leading
    zero, without it, or with a space in its place, the second digit of the
    days 10 to 29 being a decimal digit of any script.  Every other such
    line is skipped with the invalid-date warning. *)
Theorem parse_line_date_field (line domain date_str : str) :
  split [TAB] line = [domain; date_str] ->
  (forall dt,
      parse_line line = ([], Return (Some (domain, dt)))
      <-> Date.valid dt /\ date_text dt date_str)
  /\ ((forall dt, ~ (Date.valid dt /\ date_text dt date_str)) ->
      parse_line line
      = ([Print (lit "Skipping invalid date format: " ++ line)],
         Return None)).
Proof.
  intros Hs. unfold parse_line. rewrite Hs. split.
  - intros dt. rewrite <- strptime_spec.
    destruct (Date.strptime date_str) as [d|]; simpl; split; intros H;
      inversion H; reflexivity.
  - intros Hno. destruct (Date.strptime date_str) as [d|] eqn:E;
      [|reflexivity].
    apply strptime_spec in E. destruct (Hno d E).
Qed.

Lemma parse_line_date_field_witness :
  parse_line (lit "foo.se" ++ [TAB] ++ lit "2024-01-05")
  = ([], Return (Some (lit "foo.se", d_2024_01_05)))
  <-> Date.valid d_2024_01_05 /\ date_text d_2024_01_05 (lit "2024-01-05").
Proof.
  apply (@parse_line_date_field
           (lit "foo.se" ++ [TAB] ++ lit "2024-01-05")
           (lit "foo.se") (lit "2024-01-05")).
  reflexivity.
Defined.

(** C5 (as stated) fails in both directions: a date field with one-digit
    month and day gives a Record, and a field of the strict pattern that
    names no calendar day is skipped. *)
Lemma parse_line_not_strict :
  split [TAB] (lit "a.se" ++ [TAB] ++ lit "2024-1-5")
  = [lit "a.se"; lit "2024-1-5"]
  /\ strict_pattern (lit "2024-1-5") = false
  /\ parse_line (lit "a.se" ++ [TAB] ++ lit "2024-1-5")
     = ([], Return (Some (lit "a.se", d_2024_01_05)))
  /\ split [TAB] (lit "a.se" ++ [TAB] ++ lit "2024-02-30")
     = [lit "a.se"; lit "2024-02-30"]
  /\ strict_pattern (lit "2024-02-30") = true
  /\ parse_line (lit "a.se" ++ [TAB] ++ lit "2024-02-30")
     = ([Print (lit "Skipping invalid date format: a.se" ++ [TAB]
                ++ lit "2024-02-30")],
        Return None).
Proof. repeat split. Qed.

(* ================================================================= *)
(** ** The cache file read back *)

Lemma universal_newlines_id (s : str) :
  Forall (fun c => is_char CR c = false) s -> universal_newlines s = s.
Proof.
  induction 1 as [|c s Hc Hs IH]; [reflexivity|].
  cbn [universal_newlines]. rewrite Hc, IH. reflexivity.
Qed.

Lemma lines_keepends_line (l rest : str) :
  Forall (fun c => is_char LF c = false) l ->
  lines_keepends (l ++ LF :: rest) = (l ++ [LF]) :: lines_keepends rest.
Proof.
  induction 1 as [|c l Hc Hl IH]; [reflexivity|].
  cbn [app lines_keepends]. rewrite Hc, IH. reflexivity.
Qed.

Lemma lines_keepends_rows (rows : list str) :
  Forall (Forall (fun c => is_char LF c = false)) rows ->
  lines_keepends (concat (map (fun row => row ++ [LF]) rows))
  = map (fun row => row ++ [LF]) rows.
Proof.
  induction 1 as [|row rows Hr Hs IH]; [reflexivity|].
  cbn [map concat]. rewrite <- app_assoc. cbn [app].
  rewrite lines_keepends_line by exact Hr. rewrite IH. reflexivity.
Qed.

Lemma isspace_CR_LF (c : char) :
  isspace c = false -> is_char CR c = false /\ is_char LF c = false.
Proof.
  intros H. unfold is_char.
  split; apply N.eqb_neq; intros <-; discriminate H.
Qed.

Lemma zero_pad_nospace (width : nat) (n : Z) :
  Forall (fun c => isspace c = false) (Date.zero_pad width n).
Proof.
  revert n. induction width as [|w IH]; intros n; simpl; [constructor|].
  apply Forall_app. split; [apply IH|].
  constructor; [|constructor].
  apply isspace_digit_char. apply Z.mod_pos_bound. lia.
Qed.

Lemma isoformat_nospace (d : date) :
  Forall (fun c => isspace c = false) (Date.isoformat d).
Proof.
  unfold Date.isoformat. change (lit "-") with [45%N].
  apply Forall_app. split; [apply zero_pad_nospace|].
  constructor; [reflexivity|].
  apply Forall_app. split; [apply zero_pad_nospace|].
  constructor; [reflexivity|]. apply zero_pad_nospace.
Qed.

Lemma isoformat_snoc (d : date) :
  exists pre, Date.isoformat d = pre ++ [digit_char (day d mod 10)].
Proof.
  unfold Date.isoformat. cbn [Date.zero_pad].
  eexists. rewrite !app_assoc. reflexivity.
Qed.

(** A text without a space has no occurrence of [", "], and [split]
    leaves it whole. *)
Lemma occurs_nospace (s : str) :
  Forall (fun c => isspace c = false) s -> occurs (lit ", ") s = false.
Proof.
  induction 1 as [|c s Hc Hs IH]; [reflexivity|].
  cbn [occurs]. rewrite IH, orb_false_r.
  change (lit ", ") with [44%N; 32%N]. cbn [prefix].
  destruct Hs as [|c' s' Hc' _]; [apply andb_false_r|].
  replace (N.eqb 32 c') with false; [apply andb_false_r|].
  symmetry. apply N.eqb_neq. intros <-. discriminate Hc'.
Qed.

Lemma split_no_occurrence (s : str) :
  occurs (lit ", ") s = false -> split (lit ", ") s = [s].
Proof.
  unfold split. induction s as [|c s IH]; [reflexivity|].
  cbn [occurs]. intros H. apply orb_false_iff in H. destruct H as [Hp Ho].
  cbn [split_from]. rewrite Hp, (IH Ho). reflexivity.
Qed.

(** The first [", "] after a domain that has none is the separator. *)
Lemma split_cache_row (domain tail : str) :
  occurs (lit ", ") domain = false ->
  split (lit ", ") (domain ++ lit ", " ++ tail)
  = domain :: split (lit ", ") tail.
Proof.
  unfold split. induction domain as [|c dom IH]; intros H.
  - destruct tail; reflexivity.
  - cbn [occurs] in H. apply orb_false_iff in H. destruct H as [Hp Ho].
    cbn [app split_from].
    assert (Hp' : prefix (lit ", ") (c :: dom ++ lit ", " ++ tail) = false).
    { destruct dom as [|c' dom'].
      - change (lit ", ") with [44%N; 32%N]. cbn [prefix app].
        destruct (N.eqb 44 c); reflexivity.
      - exact Hp. }
    rewrite Hp', (IH Ho). reflexivity.
Qed.

Lemma cache_safe_spec (domain : str) :
  cache_safe domain = true ->
  Forall (fun c => is_char CR c = false) domain
  /\ Forall (fun c => is_char LF c = false) domain
  /\ lstrip (domain ++ lit ", ") = domain ++ lit ", "
  /\ occurs (lit ", ") domain = false.
Proof.
  unfold cache_safe. rewrite !andb_true_iff, negb_true_iff.
  intros [[Hnl Hsp] Hocc].
  rewrite forallb_forall in Hnl.
  repeat split.
  - apply Forall_forall. intros c Hc. specialize (Hnl c Hc).
    apply negb_true_iff, orb_false_iff in Hnl. tauto.
  - apply Forall_forall. intros c Hc. specialize (Hnl c Hc).
    apply negb_true_iff, orb_false_iff in Hnl. tauto.
  - destruct domain as [|c dom]; [reflexivity|].
    apply negb_true_iff in Hsp. cbn [app lstrip]. rewrite Hsp. reflexivity.
  - exact Hocc.
Qed.

Lemma lstrip_app_fixed (s t : str) : lstrip s = s -> s <> [] ->
  lstrip (s ++ t) = s ++ t.
Proof.
  destruct s as [|c s]; [congruence|]. intros H _.
  cbn [app lstrip] in *. destruct (isspace c); [|reflexivity].
  exfalso. assert (Hl : forall u, (length (lstrip u) <= length u)%nat).
  { induction u as [|a u IH]; simpl; [lia|].
    destruct (isspace a); simpl; lia. }
  specialize (Hl s). rewrite H in Hl. simpl in Hl. lia.
Qed.

Lemma strip_cache_line (domain : str) (d : date) :
  cache_safe domain = true ->
  strip ((domain ++ lit ", " ++ Date.isoformat d) ++ [LF])
  = domain ++ lit ", " ++ Date.isoformat d.
Proof.
  intros Hs. destruct (cache_safe_spec _ Hs) as [_ [_ [Hl _]]].
  unfold strip.
  replace ((domain ++ lit ", " ++ Date.isoformat d) ++ [LF])
    with ((domain ++ lit ", ") ++ Date.isoformat d ++ [LF])
    by (rewrite <- !app_assoc; reflexivity).
  rewrite lstrip_app_fixed;
    [|exact Hl|destruct domain; discriminate].
  destruct (isoformat_snoc d) as [pre E]. rewrite E.
  replace ((domain ++ lit ", ") ++ (pre ++ [digit_char (day d mod 10)])
           ++ [LF])
    with (((domain ++ lit ", " ++ pre) ++ [digit_char (day d mod 10)])
          ++ [LF])
    by (rewrite <- !app_assoc; reflexivity).
  rewrite rstrip_snoc_space by reflexivity.
  rewrite rstrip_snoc_nonspace
    by (apply isspace_digit_char, Z.mod_pos_bound; lia).
  rewrite <- !app_assoc. reflexivity.
Qed.

Lemma load_line_cache_row (domain : str) (d : date) :
  cache_safe domain = true -> Date.valid d ->
  load_line ((domain ++ lit ", " ++ Date.isoformat d) ++ [LF])
  = ([], Return (Some (domain, d))).
Proof.
  intros Hs Hv. unfold load_line. rewrite strip_cache_line by exact Hs.
  destruct (cache_safe_spec _ Hs) as [_ [_ [_ Ho]]].
  rewrite split_cache_row by exact Ho.
  rewrite split_no_occurrence
    by (apply occurs_nospace, isoformat_nospace).
  rewrite strptime_isoformat by exact Hv. reflexivity.
Qed.

Lemma cache_row_no_newline (domain : str) (d : date) :
  cache_safe domain = true ->
  Forall (fun c => is_char CR c = false)
    (domain ++ lit ", " ++ Date.isoformat d)
  /\ Forall (fun c => is_char LF c = false)
       (domain ++ lit ", " ++ Date.isoformat d).
Proof.
  intros Hs. destruct (cache_safe_spec _ Hs) as [Hcr [Hlf _]].
  split; (apply Forall_app; split; [assumption|]);
    cbn [lit list_ascii_of_string app];
    (constructor; [reflexivity|]); (constructor; [reflexivity|]);
    (eapply Forall_impl; [|apply isoformat_nospace]);
    intros c Hc; apply isspace_CR_LF in Hc; tauto.
Qed.

Lemma file_lines_cache_text (entries : list entry) :
  Forall cache_ok entries ->
  file_lines (cache_text entries)
  = (lit "domain, date" ++ [LF])
    :: map (fun row => row ++ [LF]) (cache_rows entries).
Proof.
  intros H. unfold file_lines, cache_text, file_text.
  assert (Hrows : Forall (fun row =>
                    Forall (fun c => is_char CR c = false) row
                    /\ Forall (fun c => is_char LF c = false) row)
                    (cache_rows entries)).
  { unfold cache_rows. apply Forall_map.
    eapply Forall_impl; [|exact H].
    intros [domain d] [Hs _]. apply cache_row_no_newline. exact Hs. }
  rewrite universal_newlines_id.
  - cbn [app]. rewrite lines_keepends_line by (repeat constructor).
    rewrite lines_keepends_rows; [reflexivity|].
    eapply Forall_impl; [|exact Hrows]. intros row [_ Hlf]. exact Hlf.
  - apply Forall_app. split; [repeat constructor|].
    apply Forall_app. split; [repeat constructor|].
    apply Forall_concat, Forall_map.
    eapply Forall_impl; [|exact Hrows].
    intros row [Hcr _]. apply Forall_app. split; [exact Hcr|].
    repeat constructor.
Qed.

Lemma for_lines_cache_rows (entries : list entry) :
  Forall cache_ok entries ->
  for_lines load_line (map (fun row => row ++ [LF]) (cache_rows entries))
  = ([], Return entries).
Proof.
  induction 1 as [|[domain d] l [Hs Hv] Hl IH]; [reflexivity|].
  cbn [cache_rows map for_lines]. cbn [fst snd] in *.
  rewrite load_line_cache_row by assumption.
  unfold cache_rows in IH. rewrite IH. reflexivity.
Qed.

(** The first run writes the cache text of the records it returns. *)
Lemma main_data_writes_cache (w : World) (tr : list event)
  (entries : list entry) :
  cache w = Missing ->
  write_error w (SORTED_FILE w) = None ->
  download_and_process_data w DOMAIN_DATA_URL = (tr, Return entries) ->
  main_data w
  = (Print (lit "Downloading and processing domain data...") :: tr
     ++ [FileWrite (SORTED_FILE w) (cache_text entries);
         Print (lit "Data successfully saved to " ++ SORTED_FILE w)],
     Return entries).
Proof.
  intros Hc Hw Hd. unfold main_data, save_to_file.
  rewrite Hc, Hd, Hw. cbn [print emit bind ret app].
  rewrite ?app_nil_r. reflexivity.
Qed.

(** C1 (as amended).  For records whose domains have no CR or LF, no white
    space in front and no comma followed by a space, saving in the cache
    format and loading the file written gives the records back, equal and
    in the same order. *)
Theorem cache_round_trip (w : World) (filename : str) (entries : list entry) :
  write_error w filename = None ->
  Forall cache_ok entries ->
  save_to_file w filename (lit "domain, date") (cache_rows entries)
  = ([FileWrite filename (cache_text entries);
      Print (lit "Data successfully saved to " ++ filename)],
     Return tt)
  /\ load_sorted_entries filename (Contents (cache_text entries))
     = ([], Return entries).
Proof.
  intros Hw Hok. split.
  - unfold save_to_file. rewrite Hw. reflexivity.
  - unfold load_sorted_entries.
    rewrite file_lines_cache_text by exact Hok.
    apply for_lines_cache_rows. exact Hok.
Qed.

Lemma cache_round_trip_witness :
  load_sorted_entries (lit "sorted_domains.txt")
    (Contents (cache_text sample_entries))
  = ([], Return sample_entries).
Proof.
  apply (@cache_round_trip (fresh_world sample_feed [] None)
           (lit "sorted_domains.txt") sample_entries).
  - reflexivity.
  - repeat constructor.
Defined.

(** C1 (as stated) fails: a domain with a comma and a space in it is
    parsed from the feed and saved, and its line is skipped when the file
    is loaded; a domain with a space in front comes back without it. *)
Lemma cache_round_trip_loses_records :
  let entries := [(lit "a, b.se", d_2024_01_05)] in
  Sorted entry_le entries
  /\ parse_file_content (lit "a, b.se" ++ [TAB] ++ lit "2024-01-05")
     = ([], Return entries)
  /\ load_sorted_entries (lit "sorted_domains.txt")
       (Contents (cache_text entries))
     = ([Print (lit "Skipping malformed line: a, b.se, 2024-01-05" ++ [LF])],
        Return [])
  /\ load_sorted_entries (lit "sorted_domains.txt")
       (Contents (cache_text [(lit " b.se", d_2024_01_05)]))
     = ([], Return [(lit "b.se", d_2024_01_05)]).
Proof.
  split; [repeat constructor|]. repeat split.
Qed.

Lemma get_available_domains_spec_witness :
  restricted_to d_2024_01_05 sample_entries [lit "foo.se"]
  /\ [lit "foo.se"] = get_available_domains sample_entries d_2024_01_05.
Proof.
  assert (H : restricted_to d_2024_01_05 sample_entries [lit "foo.se"]).
  { unfold sample_entries. apply restricted_keep.
    apply restricted_skip; [discriminate|]. apply restricted_nil. }
  split; [exact H|].
  exact (proj1 (proj2 (proj2
           (get_available_domains_spec sample_entries d_2024_01_05))) _ H).
Defined.

(* ================================================================= *)
(** ** Further properties: sort and filter together *)

(** X1.  Filtering the sorted records gives what filtering the parsed
    records gives, in the same order: the sort does not change the answer
    to a query. *)
Theorem filter_ignores_sort (entries : list entry) (target : date) :
  get_available_domains (sort_entries_by_date entries) target
  = get_available_domains entries target.
Proof.
  unfold get_available_domains. f_equal.
  exact (sort_entries_stable target entries).
Qed.

(* ================================================================= *)
(** ** Further properties: the fetch path *)

Lemma lstrip_all_space (s : str) :
  Forall (fun c => isspace c = true) s -> lstrip s = [].
Proof.
  induction 1 as [|c s Hc Hs IH]; [reflexivity|].
  cbn [lstrip]. rewrite Hc. exact IH.
Qed.

(** X2.  A first run whose download fails prints the error of the request
    and ends with [sys.exit]: nothing is parsed, no file is written and the
    date argument is not looked at. *)
Theorem download_failure_is_fatal (w : World) (err : str) :
  cache w = Missing ->
  feed w = HttpFail err ->
  main w
  = ([Print (lit "Downloading and processing domain data...");
      HttpGet DOMAIN_DATA_URL;
      Print (lit "Error downloading the file: " ++ err)],
     SysExit (lit "Error: Unable to download data.")).
Proof.
  intros Hc Hf.
  unfold main, main_data, download_and_process_data, download_file.
  rewrite Hc, Hf. reflexivity.
Qed.

Lemma download_failure_is_fatal_witness :
  snd (main (offline_world (lit "not a date")))
  = SysExit (lit "Error: Unable to download data.").
Proof.
  rewrite (@download_failure_is_fatal (offline_world (lit "not a date"))
             (lit "connection refused")); reflexivity.
Defined.

(** X3.  A feed made of white space only, the empty feed included, gives
    no record and no warning, and the first run ends with the no-entries
    exit. *)
Theorem blank_feed_is_fatal (w : World) (body : str) :
  cache w = Missing ->
  feed w = HttpOk body ->
  Forall (fun c => isspace c = true) body ->
  parse_file_content body = ([], Return [])
  /\ main w
     = ([Print (lit "Downloading and processing domain data...");
         HttpGet DOMAIN_DATA_URL],
        SysExit (lit "Error: No valid entries found.")).
Proof.
  intros Hc Hf Hb.
  assert (Hp : parse_file_content body = ([], Return [])).
  { unfold parse_file_content, strip.
    rewrite (lstrip_all_space Hb). reflexivity. }
  split; [exact Hp|].
  unfold main, main_data, download_and_process_data, download_file.
  rewrite Hc, Hf. cbn [emit bind ret]. rewrite Hp. reflexivity.
Qed.

Lemma blank_feed_is_fatal_witness :
  snd (main (fresh_world [LF; (chr " "); LF] (lit "2024-01-05") None))
  = SysExit (lit "Error: No valid entries found.").
Proof.
  destruct (@blank_feed_is_fatal
              (fresh_world [LF; (chr " "); LF] (lit "2024-01-05") None)
              [LF; (chr " "); LF]) as [_ H].
  - reflexivity.
  - reflexivity.
  - repeat constructor.
  - rewrite H. reflexivity.
Defined.

(* ================================================================= *)
(** ** Further properties: the query phase *)

(** X4.  The date argument is read after the data phase: with a date that
    ['%Y-%m-%d'] does not read, the run ends with the invalid-date exit only
    after the whole trace of the data phase, the download and the write of
    the cache file of a first run included, and adds nothing to it. *)
Theorem invalid_date_exits_after_data (w : World) (tr : list event)
  (entries : list entry) (date_arg : str) :
  main_data w = (tr, Return entries) ->
  arg_date w = Some date_arg ->
  date_arg <> [] ->
  Date.strptime date_arg = None ->
  main w = (tr, SysExit (lit "Error: Invalid date format. Use YYYY-MM-DD.")).
Proof.
  intros Hd Ha Hne Hp. unfold main. rewrite Hd. unfold bind, main_query.
  rewrite Ha. destruct date_arg as [|c rest]; [congruence|].
  rewrite Hp. cbn [sys_exit]. rewrite app_nil_r. reflexivity.
Qed.

Lemma invalid_date_exits_after_data_witness :
  let w := fresh_world sample_feed (lit "2024-13-40") None in
  In (FileWrite (SORTED_FILE w) (cache_text sample_entries))
    (fst (main w))
  /\ snd (main w)
     = SysExit (lit "Error: Invalid date format. Use YYYY-MM-DD.").
Proof.
  cbv zeta.
  rewrite (@invalid_date_exits_after_data
             (fresh_world sample_feed (lit "2024-13-40") None)
             _ sample_entries (lit "2024-13-40") eq_refl eq_refl);
    [|discriminate|reflexivity].
  split; [|reflexivity].
  cbn [fst]. do 4 right. left. reflexivity.
Defined.

(** X5.  Without a date argument, or with the empty text as date, the run
    adds one print to the data phase and ends: no filter, no output file,
    no advisory, whatever the flag says. *)
Theorem no_date_only_loads (w : World) (tr : list event)
  (entries : list entry) :
  main_data w = (tr, Return entries) ->
  arg_date w = None \/ arg_date w = Some [] ->
  main w
  = (tr ++ [Print (lit "Data successfully downloaded and sorted.")],
     Return tt).
Proof.
  intros Hd Ha. unfold main. rewrite Hd. unfold bind, main_query.
  destruct Ha as [Ha|Ha]; rewrite Ha; reflexivity.
Qed.

Lemma no_date_only_loads_witness :
  main (cached_world (cache_text sample_entries) [])
  = ([Print (lit "Loading sorted data from file...");
      Print (lit "Data successfully downloaded and sorted.")],
     Return tt).
Proof.
  exact (@no_date_only_loads (cached_world (cache_text sample_entries) [])
           [Print (lit "Loading sorted data from file...")] sample_entries
           eq_refl (or_intror eq_refl)).
Defined.

(** The events of the query phase: prints, the write of the output file
    of some date, and a request, which needs the flag and a key. *)
Lemma main_query_events (w : World) (entries : list entry) :
  Forall (fun e =>
            match e with
            | Print _ => True
            | HttpGet _ => False
            | FileWrite p _ => exists target, p = available_file w target
            | ChatRequest _ => arg_chatgpt w = true /\ api_key w <> None
            end)
    (fst (main_query w entries)).
Proof.
  unfold main_query.
  destruct (arg_date w) as [[|c rest]|]; try (repeat constructor).
  destruct (Date.strptime (c :: rest)) as [target|]; [|constructor].
  destruct (get_available_domains entries target) as [|dom doms];
    [repeat constructor|].
  unfold save_to_file, analyze_domains_with_chatgpt, display_analysis, OpenAI.
  destruct (write_error w (available_file w target)) as [err|];
    destruct (arg_chatgpt w) eqn:Hflag;
    destruct (api_key w) as [key|] eqn:Hkey;
    try destruct (chat w (prompt_of (dom :: doms)))
      as [[|[content|] cs]|msg|msg];
    cbn [print emit bind ret raise fst app];
    repeat (constructor; try exact I; try (eexists; reflexivity);
            try (split; [reflexivity|discriminate])).
Qed.

Lemma main_fst (w : World) :
  fst (main w)
  = fst (main_data w)
    ++ match snd (main_data w) with
       | Return entries => fst (main_query w entries)
       | _ => []
       end.
Proof. unfold main. apply bind_fst. Qed.

Lemma main_events (P : event -> Prop) (w : World) :
  Forall P (fst (main_data w)) ->
  (forall entries, Forall P (fst (main_query w entries))) ->
  Forall P (fst (main w)).
Proof.
  intros Hd Hq. rewrite main_fst. apply Forall_app. split; [exact Hd|].
  destruct (snd (main_data w)); auto.
Qed.

(** X6.  While the cache file is there, of whatever content, a run sends
    no request to the feed and does not write the cache file again. *)
Theorem cache_is_never_refetched (w : World) :
  cache w <> Missing ->
  Forall (fun e => is_http_get e = false /\ ~ writes_to (SORTED_FILE w) e)
    (fst (main w)).
Proof.
  intros Hc. apply main_events.
  - unfold main_data.
    destruct (cache w) as [|err|text|read] eqn:E; [congruence| | |].
    + repeat constructor; simpl; tauto.
    + apply bind_Forall; [repeat constructor; simpl; tauto|]. intros _.
      unfold load_sorted_entries.
      destruct (file_lines text) as [|header lines]; [constructor|].
      destruct (for_lines_count lines load_line_one_or_warning)
        as [tr [es [Ef [Hw _]]]].
      rewrite Ef. eapply Forall_impl; [|exact Hw].
      intros [text'|url|p c|prompt] He; simpl in *; try discriminate.
      tauto.
    + apply bind_Forall; [repeat constructor; simpl; tauto|]. intros _.
      unfold load_sorted_entries.
      destruct (file_lines read) as [|header lines]; [constructor|].
      apply bind_Forall; [|intros _; constructor].
      destruct (for_lines_count lines load_line_one_or_warning)
        as [tr [es [Ef [Hw _]]]].
      rewrite Ef. eapply Forall_impl; [|exact Hw].
      intros [text'|url|p c|prompt] He; simpl in *; try discriminate.
      tauto.
  - intros entries. eapply Forall_impl; [|apply main_query_events].
    intros [text'|url|p c|prompt] He; simpl in *; try tauto.
    split; [reflexivity|]. destruct He as [target ->].
    intros H. exact (@available_file_not_cache w target (eq_sym H)).
Qed.

Lemma cache_is_never_refetched_witness :
  Forall (fun e => is_http_get e = false
                   /\ ~ writes_to
                          (SORTED_FILE
                             (cached_world [] (lit "2024-01-05"))) e)
    (fst (main (cached_world [] (lit "2024-01-05")))).
Proof.
  apply cache_is_never_refetched. discriminate.
Defined.

(** X7.  Without the advisory flag, or without an API key, no request
    goes to the advisory service. *)
Theorem no_flag_or_key_no_request (w : World) :
  arg_chatgpt w = false \/ api_key w = None ->
  Forall (fun e => is_chat_request e = false) (fst (main w)).
Proof.
  intros H. apply main_events.
  - eapply Forall_impl; [|apply main_data_events].
    intros [text|url|p c|prompt] He; simpl in *; tauto.
  - intros entries. eapply Forall_impl; [|apply main_query_events].
    intros [text|url|p c|prompt] He; simpl in *; try reflexivity.
    destruct He as [Hf Hk]. destruct H; congruence.
Qed.

Lemma no_flag_or_key_no_request_witness :
  Forall (fun e => is_chat_request e = false)
    (fst (main (fresh_world sample_feed (lit "2024-01-05") None))).
Proof.
  apply no_flag_or_key_no_request. right. reflexivity.
Defined.

(* ================================================================= *)
(** ** Further properties: how often a run reaches outside *)

Lemma count_events_app (p : event -> bool) (a b : list event) :
  count_events p (a ++ b) = (count_events p a + count_events p b)%nat.
Proof. unfold count_events. rewrite filter_app, length_app. reflexivity. Qed.

Lemma count_events_none (p : event -> bool) (tr : list event) :
  Forall (fun e => p e = false) tr -> count_events p tr = 0%nat.
Proof.
  unfold count_events. induction 1 as [|e tr He Hs IH]; [reflexivity|].
  cbn [filter]. rewrite He. exact IH.
Qed.

Lemma for_lines_no_event (p : event -> bool)
  (body : str -> M (option entry)) (lines : list str) :
  one_or_warning body ->
  (forall text, p (Print text) = false) ->
  count_events p (fst (for_lines body lines)) = 0%nat.
Proof.
  intros Hb Hp. destruct (for_lines_count lines Hb) as [tr [es [E [Hw _]]]].
  rewrite E. apply count_events_none. eapply Forall_impl; [|exact Hw].
  intros [text|url|q c|prompt] He; simpl in He; try discriminate.
  apply Hp.
Qed.

Lemma main_data_http_count (w : World) :
  count_events is_http_get (fst (main_data w))
  = match cache w with
    | Missing => 1%nat
    | _ => 0%nat
    end.
Proof.
  unfold main_data. destruct (cache w) as [|err|text|read].
  - rewrite bind_fst. cbn [print emit fst snd].
    rewrite bind_fst, !count_events_app.
    unfold download_and_process_data, download_file.
    destruct (feed w) as [body|err]; cbn [emit print bind ret fst snd app].
    + destruct (for_lines_count (splitlines (strip body))
                  parse_line_one_or_warning) as [tr [es [E [Hw _]]]].
      unfold parse_file_content. rewrite E.
      assert (Htr : count_events is_http_get tr = 0%nat).
      { apply count_events_none. eapply Forall_impl; [|exact Hw].
        intros [t|u|q c|pr] He; simpl in He; try discriminate.
        reflexivity. }
      destruct es as [|e es];
        cbn [bind emit print sys_exit ret fst snd app];
        rewrite ?app_nil_r;
        change (HttpGet DOMAIN_DATA_URL :: tr)
          with ([HttpGet DOMAIN_DATA_URL] ++ tr);
        rewrite ?count_events_app, Htr; [reflexivity|].
      unfold save_to_file.
      destruct (write_error w (SORTED_FILE w)); reflexivity.
    + reflexivity.
  - reflexivity.
  - rewrite bind_fst. cbn [print emit fst snd].
    rewrite count_events_app. unfold load_sorted_entries.
    destruct (file_lines text) as [|header lines]; [reflexivity|].
    rewrite for_lines_no_event;
      [reflexivity|apply load_line_one_or_warning|reflexivity].
  - rewrite bind_fst. cbn [print emit fst snd].
    rewrite count_events_app. unfold load_sorted_entries.
    destruct (file_lines read) as [|header lines]; [reflexivity|].
    rewrite bind_fst, count_events_app.
    rewrite for_lines_no_event;
      [|apply load_line_one_or_warning|reflexivity].
    destruct (snd (for_lines load_line lines)); reflexivity.
Qed.

Lemma main_query_chat_count (w : World) (entries : list entry) :
  (count_events is_chat_request (fst (main_query w entries)) <= 1)%nat.
Proof.
  unfold main_query.
  destruct (arg_date w) as [[|c rest]|]; try (cbn; lia).
  destruct (Date.strptime (c :: rest)) as [target|]; [|cbn; lia].
  destruct (get_available_domains entries target) as [|dom doms];
    [cbn; lia|].
  unfold save_to_file, analyze_domains_with_chatgpt, display_analysis, OpenAI.
  destruct (write_error w (available_file w target)) as [err|];
    destruct (arg_chatgpt w);
    destruct (api_key w) as [key|];
    try destruct (chat w (prompt_of (dom :: doms)))
      as [[|[content|] cs]|msg|msg];
    cbn [print emit bind ret raise fst app count_events filter
           is_chat_request length];
    lia.
Qed.

(** X8.  A run sends one request to the feed when there is no cache file
    and none otherwise, and at most one request to the advisory service. *)
Theorem requests_of_a_run (w : World) :
  count_events is_http_get (fst (main w))
  = match cache w with
    | Missing => 1%nat
    | _ => 0%nat
    end
  /\ (count_events is_chat_request (fst (main w)) <= 1)%nat.
Proof.
  rewrite main_fst, !count_events_app. split.
  - rewrite main_data_http_count.
    assert (Hq : count_events is_http_get
                   match snd (main_data w) with
                   | Return entries => fst (main_query w entries)
                   | _ => []
                   end = 0%nat).
    { apply count_events_none. destruct (snd (main_data w)); try constructor.
      eapply Forall_impl; [|apply main_query_events].
      intros [t|u|q c|pr] He; simpl in *; tauto. }
    rewrite Hq. lia.
  - assert (Hd : count_events is_chat_request (fst (main_data w)) = 0%nat).
    { apply count_events_none.
      eapply Forall_impl; [|apply main_data_events].
      intros [t|u|q c|pr] He; simpl in *; tauto. }
    rewrite Hd. destruct (snd (main_data w)); cbn [plus];
      [apply main_query_chat_count|cbn; lia|cbn; lia].
Qed.

(* ================================================================= *)
(** ** Further properties: the advisory step with a key *)

(** X9.  With a key, the flag and at least one matched domain, the run
    sends one request with the prompt of the matched domains and ends
    normally whatever the service does: an answer is shown stripped, an
    error of the service or any other exception of the request is shown as
    its message, each between the two separator lines. *)
Theorem advisory_with_key_is_shown (w : World) (tr : list event)
  (entries : list entry) (date_arg key : str) (target : date)
  (domains : list str) :
  main_data w = (tr, Return entries) ->
  arg_date w = Some date_arg ->
  Date.strptime date_arg = Some target ->
  get_available_domains entries target = domains ->
  domains <> [] ->
  arg_chatgpt w = true ->
  api_key w = Some key ->
  exists analysis,
    main w
    = (tr
       ++ [Print (lit "Domains available on " ++ Date.isoformat target
                  ++ lit ":");
           Print (join [LF] domains)]
       ++ fst (save_to_file w (available_file w target) (lit "domain")
                 domains)
       ++ [Print (lit "Analyzing domains with ChatGPT...");
           ChatRequest (prompt_of domains)]
       ++ framed analysis,
       Return tt)
    /\ match chat w (prompt_of domains) with
       | ChatResponse (Some content :: _) => analysis = strip content
       | ChatResponse (None :: _) =>
           prefix (lit "Unexpected Error: ") analysis = true
       | ChatResponse [] => prefix (lit "Unexpected Error: ") analysis = true
       | ChatOpenAIError msg => analysis = lit "OpenAI API Error: " ++ msg
       | ChatOtherError msg => analysis = lit "Unexpected Error: " ++ msg
       end.
Proof.
  intros Hd Ha Hp Hdom Hne Hflag Hkey.
  assert (Harg : date_arg <> []).
  { intros ->. discriminate Hp. }
  unfold main. rewrite Hd. unfold bind at 1. unfold main_query.
  rewrite Ha. destruct date_arg as [|c rest]; [congruence|].
  rewrite Hp, Hdom.
  destruct domains as [|dom doms]; [congruence|].
  rewrite Hflag.
  unfold analyze_domains_with_chatgpt, display_analysis, OpenAI.
  rewrite Hkey.
  assert (Hs : exists trs,
             save_to_file w (available_file w target) (lit "domain")
               (dom :: doms) = (trs, Return tt)).
  { unfold save_to_file.
    destruct (write_error w (available_file w target));
      eexists; reflexivity. }
  destruct Hs as [trs Hs]. rewrite Hs.
  destruct (chat w (prompt_of (dom :: doms)))
    as [[|[content|] cs]|msg|msg];
    eexists; (split; [cbn [print emit bind ret fst snd app framed];
                      rewrite ?app_nil_r; rewrite <- ?app_assoc;
                      reflexivity|]);
    reflexivity.
Qed.

Lemma advisory_with_key_is_shown_witness :
  let w := advised_world (cache_text sample_entries) (lit "2024-01-05")
             (ChatOpenAIError (lit "quota exceeded")) in
  snd (main w) = Return tt
  /\ In (Print (lit "OpenAI API Error: quota exceeded")) (fst (main w)).
Proof.
  cbv zeta.
  destruct (@advisory_with_key_is_shown
              (advised_world (cache_text sample_entries) (lit "2024-01-05")
                 (ChatOpenAIError (lit "quota exceeded")))
              [Print (lit "Loading sorted data from file...")]
              sample_entries (lit "2024-01-05") (lit "sk-test")
              d_2024_01_05 [lit "foo.se"] eq_refl eq_refl eq_refl eq_refl)
    as [analysis [Hm Ha]]; try reflexivity; try discriminate.
  cbn in Ha. subst analysis. rewrite Hm. split; [reflexivity|].
  cbn. do 9 right. left. reflexivity.
Defined.

(* ================================================================= *)
(** ** Further properties: files that cannot be written *)

Lemma save_to_file_returns (w : World) (filename header : str)
  (rows : list str) :
  snd (save_to_file w filename header rows) = Return tt.
Proof.
  unfold save_to_file. destruct (write_error w filename); reflexivity.
Qed.

Lemma bind_snd {A B} (m : M A) (k : A -> M B) :
  snd (bind m k)
  = match snd m with
    | Return a => snd (k a)
    | SysExit msg => SysExit msg
    | Raise e => Raise e
    end.
Proof.
  destruct m as [tr [a|msg|e]]; simpl; try reflexivity.
  destruct (k a); reflexivity.
Qed.

Ltac snd_norm :=
  repeat first [rewrite bind_snd
               |rewrite save_to_file_returns
               |progress cbn [print emit ret sys_exit raise snd]].

Lemma main_data_snd_write_error (w : World) (f : str -> option str) :
  snd (main_data (with_write_error w f)) = snd (main_data w).
Proof.
  unfold main_data. cbn [with_write_error cache].
  destruct (cache w) as [|err|text|read];
    [|reflexivity|reflexivity|reflexivity].
  snd_norm.
  change (download_and_process_data (with_write_error w f) DOMAIN_DATA_URL)
    with (download_and_process_data w DOMAIN_DATA_URL).
  destruct (snd (download_and_process_data w DOMAIN_DATA_URL));
    snd_norm; reflexivity.
Qed.

Lemma main_query_snd_write_error (w : World) (f : str -> option str)
  (entries : list entry) :
  snd (main_query (with_write_error w f) entries)
  = snd (main_query w entries).
Proof.
  unfold main_query. cbn [with_write_error arg_date arg_chatgpt].
  destruct (arg_date w) as [[|c rest]|]; try reflexivity.
  destruct (Date.strptime (c :: rest)) as [target|]; [|reflexivity].
  destruct (get_available_domains entries target) as [|dom doms];
    [reflexivity|].
  snd_norm. reflexivity.
Qed.

(** X10.  Whether files can be written never changes how a run ends: in a
    world that differs only in which writes fail, the run ends with the
    same return, exit or exception. *)
Theorem write_errors_do_not_change_the_end (w : World)
  (f : str -> option str) :
  snd (main (with_write_error w f)) = snd (main w).
Proof.
  unfold main. rewrite !bind_snd, main_data_snd_write_error.
  destruct (snd (main_data w)); try reflexivity.
  apply main_query_snd_write_error.
Qed.

(* ================================================================= *)
(** ** Further properties: what the records are made of *)

Lemma cons_first_Forall (P : str -> Prop) (c : char) (ls : list str) :
  P [c] -> (forall l, P l -> P (c :: l)) ->
  Forall P ls -> Forall P (cons_first c ls).
Proof.
  intros H1 Hc Hls. destruct Hls as [|l ls Hl Hls]; simpl.
  - constructor; [exact H1|constructor].
  - constructor; [apply Hc; exact Hl|exact Hls].
Qed.

Lemma splitlines_no_linebreak_fuel (n : nat) (s : str) :
  (length s <= n)%nat ->
  Forall (Forall (fun c => is_linebreak c = false)) (splitlines s).
Proof.
  revert s. induction n as [|n IH]; intros s Hn.
  - destruct s; [constructor|simpl in Hn; lia].
  - destruct s as [|c s]; [constructor|]. simpl in Hn.
    cbn [splitlines]. destruct (is_linebreak c) eqn:Hc.
    + constructor; [constructor|].
      destruct s as [|c' s']; [constructor|].
      destruct (is_char CR c && is_char LF c'); apply IH; simpl in *; lia.
    + apply cons_first_Forall.
      * constructor; [exact Hc|constructor].
      * intros l Hl. constructor; assumption.
      * apply IH. lia.
Qed.

Lemma splitlines_no_linebreak (s : str) :
  Forall (Forall (fun c => is_linebreak c = false)) (splitlines s).
Proof. apply (splitlines_no_linebreak_fuel (n := length s)). lia. Qed.

(** The fields of [split] are made of characters of the text. *)
Lemma split_from_chars (sep : str) (skip : nat) (s : str) :
  Forall (fun field => forall c, In c field -> In c s)
    (split_from sep skip s).
Proof.
  revert skip. induction s as [|a s IH]; intros skip.
  - repeat constructor. intros c [].
  - cbn [split_from]. destruct skip as [|k].
    + destruct (prefix sep (a :: s)).
      * constructor; [intros c []|].
        eapply Forall_impl; [|apply IH]. intros f Hf c Hc. right. auto.
      * apply (@cons_first_Forall
                 (fun field => forall c, In c field -> In c (a :: s))).
        -- intros c Hc. destruct Hc as [Hc|[]]. left. exact Hc.
        -- intros l Hl c Hc. destruct Hc as [Hc|Hc];
             [left; exact Hc|apply Hl; exact Hc].
        -- eapply Forall_impl; [|apply IH]. intros f Hf c Hc. right. auto.
    + eapply Forall_impl; [|apply IH]. intros f Hf c Hc. right. auto.
Qed.

(** No field of [split('\t')] has a tab in it. *)
Lemma split_tab_no_tab (s : str) :
  Forall (Forall (fun c => is_char TAB c = false)) (split [TAB] s).
Proof.
  unfold split. induction s as [|a s IH].
  - repeat constructor.
  - cbn [split_from prefix length Nat.sub].
    destruct (N.eqb TAB a) eqn:E; cbn [andb].
    + constructor; [constructor|exact IH].
    + apply cons_first_Forall.
      * constructor; [exact E|constructor].
      * intros l Hl. constructor; assumption.
      * exact IH.
Qed.

Lemma for_lines_Forall (P : entry -> Prop) (Q : str -> Prop)
  (body : str -> M (option entry)) (lines : list str) (tr : list event)
  (entries : list entry) :
  (forall line e, Q line -> snd (body line) = Return (Some e) -> P e) ->
  Forall Q lines ->
  for_lines body lines = (tr, Return entries) ->
  Forall P entries.
Proof.
  intros Hb Hl. revert tr entries.
  induction Hl as [|line rest Hq Hr IH]; intros tr entries H.
  - inversion H. constructor.
  - cbn [for_lines] in H.
    destruct (body line) as [t [o|msg|e]] eqn:Eb; try discriminate H.
    cbn [bind] in H.
    destruct (for_lines body rest) as [t' [es|msg|e]] eqn:Er;
      try discriminate H.
    cbn [bind ret] in H. inversion H. subst.
    specialize (IH _ _ eq_refl).
    destruct o as [e|]; [|exact IH].
    constructor; [|exact IH].
    apply (Hb line e Hq). rewrite Eb. reflexivity.
Qed.

Lemma parse_line_entry (line : str) (e : entry) :
  Forall (fun c => is_linebreak c = false) line ->
  snd (parse_line line) = Return (Some e) ->
  Date.valid (snd e)
  /\ Forall (fun c => is_char TAB c = false /\ is_linebreak c = false)
       (fst e).
Proof.
  intros Hl. unfold parse_line.
  pose proof (split_tab_no_tab line) as Ht.
  pose proof (split_from_chars [TAB] 0 line) as Hc.
  fold (split [TAB] line) in Hc.
  destruct (split [TAB] line) as [|domain [|date_str [|x l]]];
    try discriminate.
  destruct (Date.strptime date_str) as [d|] eqn:E; [|discriminate].
  intros H. inversion H. subst e. cbn [fst snd].
  split; [apply (@strptime_sound date_str d E)|].
  inversion Ht as [|? ? Htd _]; subst.
  inversion Hc as [|? ? Hcd _]; subst.
  rewrite Forall_forall in *. intros c Hin. split; [auto|].
  apply Hl, Hcd, Hin.
Qed.

(** X11.  Every record the feed parser returns has a date that exists in
    the calendar (year 1 to 9999, day within its month, 29 February in
    leap years only) and a domain without tab and without line boundary. *)
Theorem parsed_records_are_well_formed (content : str) (tr : list event)
  (entries : list entry) :
  parse_file_content content = (tr, Return entries) ->
  Forall (fun e =>
            Date.valid (snd e)
            /\ Forall (fun c => is_char TAB c = false
                                /\ is_linebreak c = false) (fst e))
    entries.
Proof.
  unfold parse_file_content.
  apply for_lines_Forall
    with (Q := Forall (fun c => is_linebreak c = false)).
  - intros line e. apply parse_line_entry.
  - apply splitlines_no_linebreak.
Qed.

Lemma parsed_records_are_well_formed_witness :
  Forall (fun e =>
            Date.valid (snd e)
            /\ Forall (fun c => is_char TAB c = false
                                /\ is_linebreak c = false) (fst e))
    [(lit "example.se", d_2024_01_10); (lit "foo.se", d_2024_01_05)].
Proof.
  exact (@parsed_records_are_well_formed sample_feed _ _ eq_refl).
Defined.

Lemma download_and_process_data_inv (w : World) (url : str)
  (tr : list event) (entries : list entry) :
  download_and_process_data w url = (tr, Return entries) ->
  exists body tr' parsed,
    feed w = HttpOk body
    /\ parse_file_content body = (tr', Return parsed)
    /\ parsed <> []
    /\ entries = sort_entries_by_date parsed
    /\ tr = HttpGet url :: tr'.
Proof.
  unfold download_and_process_data, download_file.
  destruct (feed w) as [body|err]; cbn [emit print bind ret sys_exit];
    [|intros H; discriminate H].
  destruct (parse_file_content body) as [tr' [parsed|msg|e]] eqn:E;
    cbn [bind]; try (intros H; discriminate H).
  destruct parsed as [|p ps]; cbn [sys_exit ret];
    [intros H; discriminate H|].
  intros H. inversion H. subst.
  exists body, tr', (p :: ps).
  split; [reflexivity|]. split; [exact E|].
  split; [discriminate|]. split; [reflexivity|].
  cbn [app]. rewrite app_nil_r. reflexivity.
Qed.

Lemma main_data_fetch_inv (w : World) (tr : list event)
  (entries : list entry) :
  cache w = Missing ->
  main_data w = (tr, Return entries) ->
  exists tr', download_and_process_data w DOMAIN_DATA_URL
              = (tr', Return entries).
Proof.
  intros Hc. unfold main_data. rewrite Hc.
  destruct (download_and_process_data w DOMAIN_DATA_URL)
    as [tr' [es|msg|e]]; cbn [print emit bind];
    try (intros H; discriminate H).
  destruct (save_to_file w (SORTED_FILE w) (lit "domain, date") _)
    as [trs [[]|msg|e]] eqn:Es; cbn [bind ret];
    intros H; inversion H; subst.
  exists tr'. reflexivity.
Qed.

(** X12.  The data of a first run is what the parser found in the feed,
    put in ascending order of date, and it is never empty. *)
Theorem first_run_data_is_sorted (w : World) (tr : list event)
  (entries : list entry) :
  cache w = Missing ->
  main_data w = (tr, Return entries) ->
  entries <> []
  /\ StronglySorted entry_le entries
  /\ exists body parsed,
       feed w = HttpOk body
       /\ snd (parse_file_content body) = Return parsed
       /\ Permutation parsed entries.
Proof.
  intros Hc Hd.
  destruct (@main_data_fetch_inv w tr entries Hc Hd) as [tr' Hdl].
  destruct (@download_and_process_data_inv w _ _ _ Hdl)
    as [body [trp [parsed [Hf [Hp [Hne [-> _]]]]]]].
  assert (Hperm : Permutation parsed (sort_entries_by_date parsed))
    by apply sorted_perm.
  split; [|split].
  - intros Hnil. rewrite Hnil in Hperm.
    apply Permutation_sym, Permutation_nil in Hperm. contradiction.
  - apply sort_entries_sorted.
  - exists body, parsed. rewrite Hp. auto.
Qed.

Lemma first_run_data_is_sorted_witness :
  sample_entries <> [] /\ StronglySorted entry_le sample_entries.
Proof.
  destruct (@first_run_data_is_sorted
              (fresh_world sample_feed (lit "2024-01-05") None)
              _ sample_entries eq_refl eq_refl) as [H1 [H2 _]].
  split; assumption.
Defined.

(* ================================================================= *)
(** ** Further properties: the lines of a file *)

Lemma universal_newlines_no_CR_fuel (n : nat) (s : str) :
  (length s <= n)%nat ->
  Forall (fun c => is_char CR c = false) (universal_newlines s)
  /\ (forall c, In c (universal_newlines s) -> c = LF \/ In c s).
Proof.
  revert s. induction n as [|n IH]; intros s Hn.
  - destruct s; [split; [constructor|intros c []]|simpl in Hn; lia].
  - destruct s as [|a s]; [split; [constructor|intros c []]|].
    simpl in Hn. cbn [universal_newlines].
    destruct (is_char CR a) eqn:Ha.
    + destruct s as [|b s'].
      * split; [repeat constructor|]. intros c [<-|[]]. left. reflexivity.
      * destruct (is_char LF b).
        -- destruct (IH s') as [H1 H2]; [simpl in *; lia|].
           split; [constructor; [reflexivity|exact H1]|].
           intros c [<-|Hc]; [left; reflexivity|].
           destruct (H2 c Hc); [left; assumption|right; right; right; assumption].
        -- destruct (IH (b :: s')) as [H1 H2]; [simpl in *; lia|].
           split; [constructor; [reflexivity|exact H1]|].
           intros c [<-|Hc]; [left; reflexivity|].
           destruct (H2 c Hc); [left; assumption|right; right; assumption].
    + destruct (IH s) as [H1 H2]; [lia|].
      split; [constructor; assumption|].
      intros c [<-|Hc]; [right; left; reflexivity|].
      destruct (H2 c Hc); [left; assumption|right; right; assumption].
Qed.

Lemma universal_newlines_no_CR (s : str) :
  Forall (fun c => is_char CR c = false) (universal_newlines s).
Proof.
  apply (@universal_newlines_no_CR_fuel (length s) s). lia.
Qed.

(** A line of a file is a text without LF, with or without an LF after
    it. *)
Lemma lines_keepends_shape (s : str) :
  Forall (fun line =>
            exists body,
              Forall (fun c => is_char LF c = false) body
              /\ (line = body \/ line = body ++ [LF])
              /\ (forall c, In c body -> In c s))
    (lines_keepends s).
Proof.
  induction s as [|a s IH]; [constructor|].
  cbn [lines_keepends]. destruct (is_char LF a) eqn:Ha.
  - constructor.
    + exists []. split; [constructor|]. split; [|intros c []].
      right. apply is_char_eq in Ha. subst a. reflexivity.
    + eapply Forall_impl; [|exact IH].
      intros line [body [H1 [H2 H3]]]. exists body.
      split; [exact H1|]. split; [exact H2|]. intros c Hc. right. auto.
  - destruct (lines_keepends s) as [|l ls]; cbn [cons_first].
    + constructor; [|constructor]. exists [a].
      split; [constructor; [exact Ha|constructor]|].
      split; [left; reflexivity|]. intros c [<-|[]]. left. reflexivity.
    + inversion IH as [|? ? [body [H1 [H2 H3]]] Hls]; subst.
      constructor.
      * exists (a :: body). split; [constructor; assumption|].
        split; [destruct H2 as [->| ->]; [left|right]; reflexivity|].
        intros c [<-|Hc]; [left; reflexivity|right; auto].
      * eapply Forall_impl; [|exact Hls].
        intros line [body' [H1' [H2' H3']]]. exists body'.
        split; [exact H1'|]. split; [exact H2'|]. intros c Hc. right. auto.
Qed.

Lemma strip_snoc_space (s : str) (c : char) :
  isspace c = true -> strip (s ++ [c]) = strip s.
Proof.
  intros Hc. unfold strip. induction s as [|a s IH].
  - cbn [app lstrip]. rewrite Hc. reflexivity.
  - cbn [app lstrip]. destruct (isspace a); [exact IH|].
    change (a :: s ++ [c]) with ((a :: s) ++ [c]).
    apply rstrip_snoc_space. exact Hc.
Qed.

Lemma lstrip_chars (s : str) (c : char) : In c (lstrip s) -> In c s.
Proof.
  induction s as [|a s IH]; [auto|]. cbn [lstrip].
  destruct (isspace a); [intros H; right; auto|auto].
Qed.

Lemma strip_chars (s : str) (c : char) : In c (strip s) -> In c s.
Proof.
  unfold strip, rstrip. intros H.
  apply in_rev, lstrip_chars, in_rev in H. apply lstrip_chars. exact H.
Qed.

Lemma file_lines_shape (text : str) :
  Forall (fun line =>
            exists body, one_line body
                         /\ (line = body \/ line = body ++ [LF]))
    (file_lines text).
Proof.
  unfold file_lines.
  eapply Forall_impl; [|apply lines_keepends_shape].
  intros line [body [Hlf [Hshape Hin]]]. exists body.
  split; [|exact Hshape].
  pose proof (universal_newlines_no_CR text) as Hcr.
  unfold one_line. rewrite Forall_forall in *.
  intros c Hc. split; [|auto].
  apply Hcr, Hin, Hc.
Qed.

Lemma load_line_entry (line : str) (e : entry) :
  (exists body, one_line body /\ (line = body \/ line = body ++ [LF])) ->
  snd (load_line line) = Return (Some e) ->
  Date.valid (snd e) /\ one_line (fst e).
Proof.
  intros [body [Hb Hshape]]. unfold load_line.
  assert (Hs : strip line = strip body).
  { destruct Hshape as [->| ->]; [reflexivity|].
    apply strip_snoc_space. reflexivity. }
  rewrite Hs.
  pose proof (split_from_chars (lit ", ") 0 (strip body)) as Hc.
  fold (split (lit ", ") (strip body)) in Hc.
  destruct (split (lit ", ") (strip body)) as [|domain [|date_str [|x l]]];
    try discriminate.
  destruct (Date.strptime date_str) as [d|] eqn:E; [|discriminate].
  intros H. inversion H. subst e. cbn [fst snd].
  split; [apply (@strptime_sound date_str d E)|].
  inversion Hc as [|? ? Hcd _]; subst.
  unfold one_line in *. rewrite Forall_forall in *.
  intros c Hin. apply Hb, strip_chars, Hcd, Hin.
Qed.

Lemma linebreak_CR_LF (c : char) :
  is_linebreak c = false -> is_char CR c = false /\ is_char LF c = false.
Proof.
  intros H. unfold is_char.
  split; apply N.eqb_neq; intros <-; discriminate H.
Qed.

Lemma main_data_well_formed (w : World) (tr : list event)
  (entries : list entry) :
  main_data w = (tr, Return entries) ->
  Forall (fun e => Date.valid (snd e) /\ one_line (fst e)) entries.
Proof.
  intros Hd. destruct (cache w) as [|err|text|read] eqn:Hc.
  - destruct (@main_data_fetch_inv w tr entries Hc Hd) as [tr' Hdl].
    destruct (@download_and_process_data_inv w _ _ _ Hdl)
      as [body [trp [parsed [_ [Hp [_ [-> _]]]]]]].
    eapply Permutation_Forall; [apply sorted_perm|].
    unfold parse_file_content in Hp.
    eapply for_lines_Forall
      with (Q := Forall (fun c => is_linebreak c = false));
      [|apply splitlines_no_linebreak|exact Hp].
    intros line e Hl He. destruct (parse_line_entry Hl He) as [Hv Hdom].
    split; [exact Hv|]. eapply Forall_impl; [|exact Hdom].
    intros c [_ Hlb]. apply linebreak_CR_LF. exact Hlb.
  - unfold main_data in Hd. rewrite Hc in Hd. inversion Hd. constructor.
  - unfold main_data in Hd. rewrite Hc in Hd.
    cbn [print emit bind load_sorted_entries] in Hd.
    pose proof (file_lines_shape text) as Hshape.
    destruct (file_lines text) as [|header lines];
      [discriminate Hd|].
    inversion Hshape as [|? ? _ Hlines]; subst.
    destruct (for_lines load_line lines) as [trl [es|msg|e]] eqn:El;
      inversion Hd; subst.
    eapply for_lines_Forall; [|exact Hlines|exact El].
    intros line e. apply load_line_entry.
  - unfold main_data in Hd. rewrite Hc in Hd.
    cbn [print emit bind load_sorted_entries] in Hd.
    destruct (file_lines read) as [|header lines];
      [discriminate Hd|].
    destruct (for_lines load_line lines) as [trl [es|msg|e]];
      discriminate Hd.
Qed.

(** X13.  Whichever way a run gets its data, from the feed or from a cache
    file of any content, every record it goes on with has a date that
    exists in the calendar and a domain without CR and LF. *)
Theorem data_is_well_formed (w : World) (tr : list event)
  (entries : list entry) :
  main_data w = (tr, Return entries) ->
  Forall (fun e => Date.valid (snd e) /\ one_line (fst e)) entries.
Proof. apply main_data_well_formed. Qed.

Lemma data_is_well_formed_witness :
  Forall (fun e => Date.valid (snd e) /\ one_line (fst e)) sample_entries.
Proof.
  exact (@data_is_well_formed
           (cached_world (cache_text sample_entries) (lit "2024-01-05"))
           _ sample_entries eq_refl).
Defined.

Lemma file_lines_file_text (header : str) (rows : list str) :
  one_line header -> Forall one_line rows ->
  file_lines (file_text header rows)
  = (header ++ [LF]) :: map (fun row => row ++ [LF]) rows.
Proof.
  unfold one_line. intros Hh Hr. unfold file_lines, file_text.
  rewrite universal_newlines_id.
  - cbn [app]. rewrite lines_keepends_line.
    + rewrite lines_keepends_rows; [reflexivity|].
      eapply Forall_impl; [|exact Hr]. intros row Hrow.
      eapply Forall_impl; [|exact Hrow]. intros c Hc. apply Hc.
    + eapply Forall_impl; [|exact Hh]. intros c Hc. apply Hc.
  - apply Forall_app. split.
    + eapply Forall_impl; [|exact Hh]. intros c Hc. apply Hc.
    + apply Forall_app. split; [repeat constructor|].
      apply Forall_concat, Forall_map.
      eapply Forall_impl; [|exact Hr]. intros row Hrow.
      apply Forall_app. split; [|repeat constructor].
      eapply Forall_impl; [|exact Hrow]. intros c Hc. apply Hc.
Qed.

Lemma main_query_writes (w : World) (entries : list entry)
  (date_arg : str) (target : date) (content : str) :
  arg_date w = Some date_arg ->
  Date.strptime date_arg = Some target ->
  In (FileWrite (available_file w target) content)
    (fst (main_query w entries))
  <-> get_available_domains entries target <> []
      /\ write_error w (available_file w target) = None
      /\ content
         = file_text (lit "domain") (get_available_domains entries target).
Proof.
  intros Ha Hp. unfold main_query. rewrite Ha.
  destruct date_arg as [|c rest]; [discriminate Hp|]. rewrite Hp.
  destruct (get_available_domains entries target) as [|dom doms].
  - cbn [print emit fst In]. split.
    + intros [H|[]]. discriminate H.
    + intros [H _]. congruence.
  - unfold save_to_file, analyze_domains_with_chatgpt, display_analysis,
      OpenAI.
    destruct (write_error w (available_file w target)) as [err|];
      destruct (arg_chatgpt w);
      destruct (api_key w) as [key|];
      try destruct (chat w (prompt_of (dom :: doms)))
        as [[|[text|] cs]|msg|msg];
      cbn [print emit bind ret raise fst app In];
      (split;
       [intros H;
        repeat (destruct H as [H|H]; [try discriminate H|]);
        try contradiction;
        try (inversion H; subst;
             split; [discriminate|split; reflexivity])
       |intros [_ [Hw ->]]; try discriminate Hw;
        do 2 right; left; reflexivity]).
Qed.

(** X14.  A run writes the output file of its query exactly when a domain
    matches and the file can be opened; what it writes is the header line
    [domain] and then the matched domains in the order of the filter, and
    that text read back line by line is the header and one line per matched
    domain: no domain a run can hold breaks a line of the file. *)
Theorem output_file_lists_the_domains (w : World) (tr : list event)
  (entries : list entry) (date_arg : str) (target : date) (content : str) :
  main_data w = (tr, Return entries) ->
  arg_date w = Some date_arg ->
  Date.strptime date_arg = Some target ->
  (In (FileWrite (available_file w target) content) (fst (main w))
   <-> get_available_domains entries target <> []
       /\ write_error w (available_file w target) = None
       /\ content
          = file_text (lit "domain") (get_available_domains entries target))
  /\ file_lines (file_text (lit "domain")
                   (get_available_domains entries target))
     = (lit "domain" ++ [LF])
       :: map (fun domain => domain ++ [LF])
            (get_available_domains entries target).
Proof.
  intros Hd Ha Hp. split.
  - rewrite main_fst, Hd. cbn [fst snd]. rewrite in_app_iff.
    rewrite (@main_query_writes w entries date_arg target content Ha Hp).
    split; [|tauto]. intros [Hin|H]; [|exact H]. exfalso.
    pose proof (main_data_events w) as Hev. rewrite Hd in Hev.
    cbn [fst] in Hev. rewrite Forall_forall in Hev.
    specialize (Hev _ Hin). cbn [data_event] in Hev.
    exact (@available_file_not_cache w target (eq_sym Hev)).
  - apply file_lines_file_text.
    + repeat constructor.
    + pose proof (@main_data_well_formed w tr entries Hd) as Hwf.
      unfold get_available_domains. apply Forall_map.
      apply Forall_forall. intros e He. apply filter_In in He.
      rewrite Forall_forall in Hwf. apply Hwf, He.
Qed.

Lemma output_file_lists_the_domains_witness :
  let w := cached_world (cache_text sample_entries) (lit "2024-01-05") in
  In (FileWrite (available_file w d_2024_01_05)
        (lit "domain" ++ [LF] ++ lit "foo.se" ++ [LF]))
    (fst (main w)).
Proof.
  cbv zeta.
  apply (@output_file_lists_the_domains
           (cached_world (cache_text sample_entries) (lit "2024-01-05"))
           _ sample_entries (lit "2024-01-05") d_2024_01_05
           (lit "domain" ++ [LF] ++ lit "foo.se" ++ [LF])
           eq_refl eq_refl eq_refl).
  split; [discriminate|]. split; reflexivity.
Defined.

(* ================================================================= *)
(** ** Further properties: the cache file as a run finds it *)

(** X15.  On a cache file whose bytes are the UTF-8 of a text with at
    least one line the load ends normally, all it prints are skipped-line
    warnings, and the records and the warnings are together as many as the
    lines after the first. *)
Theorem load_counts_lines (filename text : str) :
  file_lines text <> [] ->
  exists tr entries,
    load_sorted_entries filename (Contents text) = (tr, Return entries)
    /\ Forall (fun e => skip_warning e = true) tr
    /\ S (length entries + count_warnings tr) = length (file_lines text).
Proof.
  intros Hne. unfold load_sorted_entries.
  destruct (file_lines text) as [|header lines]; [congruence|].
  destruct (for_lines_count lines load_line_one_or_warning)
    as [tr [entries [E [Hw Hn]]]].
  exists tr, entries. split; [exact E|]. split; [exact Hw|].
  rewrite count_warnings_all by exact Hw. cbn [length]. lia.
Qed.

Lemma load_counts_lines_witness :
  exists tr entries,
    load_sorted_entries (lit "sorted_domains.txt")
      (Contents (lit "domain, date" ++ [LF] ++ lit "foo.se 2024-01-05"))
    = (tr, Return entries)
    /\ Forall (fun e => skip_warning e = true) tr
    /\ S (length entries + count_warnings tr)
       = length (file_lines
                   (lit "domain, date" ++ [LF] ++ lit "foo.se 2024-01-05")).
Proof.
  apply load_counts_lines. discriminate.
Defined.

Lemma universal_newlines_line (l rest : str) :
  Forall (fun c => is_char CR c = false) l ->
  universal_newlines (l ++ LF :: rest) = l ++ LF :: universal_newlines rest.
Proof.
  induction 1 as [|c l Hc Hl IH]; [reflexivity|].
  cbn [app universal_newlines]. rewrite Hc, IH. reflexivity.
Qed.

(** X16.  The first line of a cache file that decodes is passed over
    without being looked at: two such files that differ in their first line
    only load the same records with the same warnings. *)
Theorem header_is_not_checked (filename header header' rest : str) :
  one_line header -> one_line header' ->
  load_sorted_entries filename (Contents (header ++ LF :: rest))
  = load_sorted_entries filename (Contents (header' ++ LF :: rest)).
Proof.
  unfold one_line. intros H H'.
  assert (Hl : forall h, Forall (fun c => is_char CR c = false
                                          /\ is_char LF c = false) h ->
               file_lines (h ++ LF :: rest)
               = (h ++ [LF]) :: file_lines rest).
  { intros h Hh. unfold file_lines.
    rewrite universal_newlines_line
      by (eapply Forall_impl; [|exact Hh]; intros c Hc; apply Hc).
    apply lines_keepends_line.
    eapply Forall_impl; [|exact Hh]. intros c Hc. apply Hc. }
  unfold load_sorted_entries. rewrite (Hl _ H), (Hl _ H'). reflexivity.
Qed.

Lemma header_is_not_checked_witness :
  load_sorted_entries (lit "sorted_domains.txt")
    (Contents (lit "domain, date" ++ LF :: lit "foo.se, 2024-01-05"))
  = load_sorted_entries (lit "sorted_domains.txt")
      (Contents (lit "anything" ++ LF :: lit "foo.se, 2024-01-05")).
Proof.
  apply header_is_not_checked; repeat constructor.
Defined.

(** X17.  A first run that can write its cache file writes the cache text
    of its records, and when no domain among them has white space in front
    or a comma followed by a space, a later run on that file starts from the
    same records in the same order without a warning. *)
Theorem second_run_finds_the_same_data (w1 w2 : World) (tr : list event)
  (entries : list entry) :
  cache w1 = Missing ->
  write_error w1 (SORTED_FILE w1) = None ->
  main_data w1 = (tr, Return entries) ->
  Forall (fun e => cache_safe (fst e) = true) entries ->
  cache w2 = Contents (cache_text entries) ->
  In (FileWrite (SORTED_FILE w1) (cache_text entries)) tr
  /\ main_data w2
     = ([Print (lit "Loading sorted data from file...")], Return entries).
Proof.
  intros Hc Hw Hd Hsafe Hc2.
  destruct (@main_data_fetch_inv w1 tr entries Hc Hd) as [tr' Hdl].
  pose proof (@main_data_writes_cache w1 tr' entries Hc Hw Hdl) as Hd'.
  rewrite Hd in Hd'. inversion Hd' as [Htr]. clear Hd'.
  split.
  - right. apply in_or_app. right. left. reflexivity.
  - assert (Hok : Forall cache_ok entries).
    { pose proof (@main_data_well_formed w1 tr entries Hd) as Hwf.
      rewrite Forall_forall in *. intros e He. split; [auto|].
      apply Hwf, He. }
    unfold main_data. rewrite Hc2.
    cbn [print emit bind load_sorted_entries].
    rewrite file_lines_cache_text by exact Hok.
    rewrite for_lines_cache_rows by exact Hok. reflexivity.
Qed.

Lemma second_run_finds_the_same_data_witness :
  main_data (cached_world (cache_text sample_entries) (lit "2024-01-10"))
  = ([Print (lit "Loading sorted data from file...")], Return sample_entries).
Proof.
  apply (@second_run_finds_the_same_data
           (fresh_world sample_feed (lit "2024-01-05") None)
           (cached_world (cache_text sample_entries) (lit "2024-01-10"))
           _ sample_entries eq_refl eq_refl eq_refl).
  - repeat constructor.
  - reflexivity.
Defined.

(* ================================================================= *)
(** ** Further properties: the date on the command line *)

Lemma is_ascii_digit_digit_char (k : Z) :
  0 <= k < 10 -> is_ascii_digit (digit_char k) = true.
Proof.
  intros H. apply in_range_iff. rewrite code_digit_char by lia. lia.
Qed.

Lemma strict_pattern_isoformat (d : date) :
  strict_pattern (Date.isoformat d) = true.
Proof.
  unfold Date.isoformat. change (lit "-") with [45%N].
  cbn [Date.zero_pad app strict_pattern forallb].
  rewrite !is_ascii_digit_digit_char by (apply Z.mod_pos_bound; lia).
  reflexivity.
Qed.

(** X18.  Whatever spelling of a date ['%Y-%m-%d'] accepts, the text the
    run prints for it and puts in the name of the output file is the
    ten-character form of four, two and two digits, and that text reads
    back as the same date. *)
Theorem printed_date_is_canonical (s : str) (d : date) :
  Date.strptime s = Some d ->
  strict_pattern (Date.isoformat d) = true
  /\ length (Date.isoformat d) = 10%nat
  /\ Date.strptime (Date.isoformat d) = Some d.
Proof.
  intros H. split; [apply strict_pattern_isoformat|].
  split; [reflexivity|].
  apply strptime_isoformat. apply (@strptime_sound s d H).
Qed.

Lemma printed_date_is_canonical_witness :
  Date.isoformat d_2024_01_05 = lit "2024-01-05"
  /\ Date.strptime (Date.isoformat d_2024_01_05) = Some d_2024_01_05.
Proof.
  split; [reflexivity|].
  apply (@printed_date_is_canonical (lit "2024-1-5") d_2024_01_05 eq_refl).
Defined.

(** X19.  Two spellings of one date on the command line give the same
    run: the same trace and the same end. *)
Theorem spelling_of_the_date_is_irrelevant (w : World) (s1 s2 : str)
  (d : date) :
  Date.strptime s1 = Some d ->
  Date.strptime s2 = Some d ->
  main (with_arg_date w s1) = main (with_arg_date w s2).
Proof.
  intros H1 H2. unfold main.
  change (main_data (with_arg_date w s1)) with (main_data w).
  change (main_data (with_arg_date w s2)) with (main_data w).
  destruct (main_data w) as [tr [entries|msg|e]]; try reflexivity.
  unfold bind. f_equal.
  unfold main_query. cbn [with_arg_date arg_date arg_chatgpt].
  destruct s1 as [|c1 r1]; [discriminate H1|].
  destruct s2 as [|c2 r2]; [discriminate H2|].
  rewrite H1, H2. reflexivity.
Qed.

Lemma spelling_of_the_date_is_irrelevant_witness :
  main (with_arg_date (cached_world (cache_text sample_entries) [])
          (lit "2024-1-5"))
  = main (with_arg_date (cached_world (cache_text sample_entries) [])
            (lit "2024-01- 5")).
Proof.
  apply (@spelling_of_the_date_is_irrelevant _ _ _ d_2024_01_05);
    reflexivity.
Defined.

(** X20.  A text ['%Y-%m-%d'] accepts has eight to ten characters, and
    the date it gives has a year from 1 to 9999, a month from 1 to 12 and a
    day of that month: at most 31, at most 30 in April, June, September and
    November, at most 29 in February and 29 only in a year divisible by 4
    that is not a century, or divisible by 400. *)
Theorem strptime_bounds (s : str) (d : date) :
  Date.strptime s = Some d ->
  (8 <= length s <= 10)%nat
  /\ 1 <= year d <= 9999
  /\ 1 <= month d <= 12
  /\ 1 <= day d <= 31
  /\ (month d = 4 \/ month d = 6 \/ month d = 9 \/ month d = 11 ->
      day d <= 30)
  /\ (month d = 2 -> day d <= 29)
  /\ (month d = 2 -> day d = 29 ->
      year d mod 4 = 0 /\ (year d mod 100 <> 0 \/ year d mod 400 = 0)).
Proof.
  intros H. apply strptime_sound in H. destruct H as [Hv Ht].
  split.
  - destruct Ht as [ye [mo [da [Hy [Hm [Hd ->]]]]]].
    rewrite !length_app. change (lit "-") with [45%N]. cbn [length].
    assert (Hlm : (1 <= length mo <= 2)%nat)
      by (destruct Hm; cbn; lia).
    assert (Hld : (1 <= length da <= 2)%nat)
      by (destruct Hd; cbn; lia).
    assert (Hly : length ye = 4%nat)
      by (destruct Hy; reflexivity).
    lia.
  - destruct d as [y m dd]. unfold Date.valid in Hv.
    cbn [year month day] in *.
    unfold Date.check_date_fields, Date.days_in_month, Date.is_leap in Hv.
    rewrite !andb_true_iff, !Z.leb_le in Hv.
    destruct Hv as [[[[[Hy1 Hy2] Hm1] Hm2] Hd1] Hd2].
    destruct (m =? 2) eqn:E2;
      [apply Z.eqb_eq in E2|apply Z.eqb_neq in E2].
    + destruct (y mod 4 =? 0) eqn:E4;
        destruct (y mod 100 =? 0) eqn:E100;
        destruct (y mod 400 =? 0) eqn:E400;
        cbn [andb orb negb] in Hd2;
        rewrite ?Z.eqb_eq, ?Z.eqb_neq in *; repeat split; lia.
    + cbn [andb] in Hd2.
      destruct ((m =? 4) || (m =? 6) || (m =? 9) || (m =? 11)) eqn:E30.
      * repeat split; lia.
      * rewrite !orb_false_iff, !Z.eqb_neq in E30. repeat split; lia.
Qed.

Lemma strptime_bounds_witness :
  (8 <= length (lit "2024-2-29") <= 10)%nat
  /\ 1 <= year (mkdate 2024 2 29) <= 9999.
Proof.
  destruct (@strptime_bounds (lit "2024-2-29") (mkdate 2024 2 29) eq_refl)
    as [H1 [H2 _]].
  split; assumption.
Defined.

(* ================================================================= *)
(** ** Further properties: a cache file that is not UTF-8 *)

(** X21.  On a cache file whose bytes are not valid UTF-8 the load never
    returns: after the warnings of the lines read so far
    [UnicodeDecodeError] leaves [load_sorted_entries], and the run ends
    with it before the date argument is looked at. *)
Theorem undecodable_cache_raises (w : World) (read : str) :
  cache w = Undecodable read ->
  snd (load_sorted_entries (SORTED_FILE w) (Undecodable read))
  = Raise UnicodeDecodeError
  /\ Forall (fun e => skip_warning e = true)
       (fst (load_sorted_entries (SORTED_FILE w) (Undecodable read)))
  /\ main w
     = (Print (lit "Loading sorted data from file...")
        :: fst (load_sorted_entries (SORTED_FILE w) (Undecodable read)),
        Raise UnicodeDecodeError).
Proof.
  intros Hc.
  assert (Hl : exists tr,
             load_sorted_entries (SORTED_FILE w) (Undecodable read)
             = (tr, Raise UnicodeDecodeError)
             /\ Forall (fun e => skip_warning e = true) tr).
  { unfold load_sorted_entries.
    destruct (file_lines read) as [|header lines].
    - exists []. split; [reflexivity|constructor].
    - destruct (for_lines_count lines load_line_one_or_warning)
        as [tr [es [E [Hw _]]]].
      exists tr. rewrite E. cbn [bind raise]. rewrite app_nil_r.
      split; [reflexivity|exact Hw]. }
  destruct Hl as [tr [El Hw]].
  unfold main, main_data. rewrite Hc, El. cbn [print emit bind fst snd app].
  split; [reflexivity|]. split; [exact Hw|reflexivity].
Qed.

Lemma undecodable_cache_raises_witness :
  main (mkWorld (lit "/opt/domainer") (Undecodable []) (HttpFail [])
          (fun _ => None) None no_chat (Some (lit "2024-01-05")) false)
  = ([Print (lit "Loading sorted data from file...")],
     Raise UnicodeDecodeError).
Proof.
  apply (@undecodable_cache_raises
           (mkWorld (lit "/opt/domainer") (Undecodable []) (HttpFail [])
              (fun _ => None) None no_chat (Some (lit "2024-01-05")) false)
           [] eq_refl).
Defined.
